(** * StackNN: controllers for neural data structures, and the command line

    A shallow embedding of [models/base.py] (the abstract controller),
    [run.py] (the command line) and [tasks/configs.py] (the named
    configurations), with the properties of the batch lifecycle, of the
    regularization bookkeeping and of the name resolution of the command
    line.

    Python objects that are mutated in place are kept in an explicit state:
    a controller together with the store of regularization trackers it
    shares with its structure.  A statement that raises leaves the state as
    it was at the raise, so every operation returns the state reached and
    either an exception or a value. *)

From Stdlib Require Import ZArith List Bool Floats.
From stdpp Require Import gmap strings.

Set Warnings "-register-all".

(** ** Python values common to the three files *)

Module Py.

(** Exception classes.  The seven first ones are Python's; the last one
    stands for the failure of a structure's initialisation, for which the
    specification names no class. *)
Inductive ExnClass : Set :=
| ValueError
| TypeError
| RuntimeError
| AttributeError
| NotImplementedError
| KeyError
| NameError
| StructInitError.

Record Exn : Set := mkExn { exn_class : ExnClass; exn_msg : string }.

(** A class object: its name, the names of its proper ancestors, and
    whether it is a builtin type.  Classes are identified by name. *)
Record PyClass : Set := mkClass {
  cls_name : string;
  cls_ancestors : list string;
  cls_builtin : bool
}.

(** [issubclass(c, s)] for two class objects: a class is a subclass of
    itself and of each of its ancestors. *)
Definition issubclass (c s : PyClass) : bool :=
  String.eqb (cls_name c) (cls_name s)
  || existsb (String.eqb (cls_name s)) (cls_ancestors c).

(** [str(c)] for a class object. *)
Definition class_str (c : PyClass) : string :=
  (if cls_builtin c then "<type '" else "<class '") +:+ cls_name c +:+ "'>".

(** The objects that a name of a module, an attribute or an entry of a
    configuration can be bound to. *)
Inductive PyObj : Type :=
| ObjNone
| ObjClass (c : PyClass)
| ObjDict (d : gmap string PyObj)
| ObjStr (s : string)
| ObjInt (z : Z)
| ObjList (l : list PyObj)
| ObjFunction (name : string)
| ObjModule (name : string)
| ObjOther (description : string).

(** The builtin [issubclass(obj, superclass)]: its first argument must be a
    class. *)
Definition issubclass_obj (obj : PyObj) (superclass : PyClass) : Exn + bool :=
  match obj with
  | ObjClass c => inr (issubclass c superclass)
  | _ => inl (mkExn TypeError "issubclass() arg 1 must be a class")
  end.

(** Statements: from a state to the state reached and an exception or a
    value. *)
Definition M (S A : Type) : Type := S -> S * (Exn + A).

Definition ret {S A} (a : A) : M S A := fun s => (s, inr a).

Definition raise {S A} (e : Exn) : M S A := fun s => (s, inl e).

Definition bind {S A B} (m : M S A) (k : A -> M S B) : M S B :=
  fun s =>
    match m s with
    | (s', inl e) => (s', inl e)
    | (s', inr a) => k a s'
    end.

Definition get {S} : M S S := fun s => (s, inr s).

Definition modify {S} (f : S -> S) : M S unit := fun s => (f s, inr tt).

(** The result of a call that touches no state. *)
Definition lift {S A} (r : Exn + A) : M S A := fun s => (s, r).

Definition raised {S A} (r : S * (Exn + A)) : option Exn :=
  match snd r with inl e => Some e | inr _ => None end.

Definition returned {S A} (r : S * (Exn + A)) : option A :=
  match snd r with inl _ => None | inr a => Some a end.

End Py.

Import Py.

Declare Scope py_scope.
Delimit Scope py_scope with py.
Notation "x <- m ;; k" := (bind m (fun x => k))
  (at level 100, m at next level, right associativity) : py_scope.
Notation "m ;;; k" := (bind m (fun _ => k))
  (at level 100, right associativity) : py_scope.

(** ** Tensors of [torch] *)

Module Torch.

(** A two-dimensional tensor: its shape and its rows. *)
Record Tensor : Set := mkTensor {
  shape : Z * Z;
  rows : list (list float)
}.

Definition row_of_zeros (n : Z) : list float := repeat 0%float (Z.to_nat n).

(** [torch.zeros([n, m])]: a negative dimension is refused, and a dimension
    of 0 gives a tensor without entries. *)
Definition zeros (n m : Z) : Exn + Tensor :=
  if ((n <? 0) || (m <? 0))%Z
  then inl (mkExn RuntimeError "Trying to create tensor with negative dimension")
  else inr {| shape := (n, m); rows := repeat (row_of_zeros m) (Z.to_nat n) |}.

(** The entry at row [i] and column [j]. *)
Definition entry (t : Tensor) (i j : nat) : option float :=
  match nth_error (rows t) i with
  | Some r => nth_error r j
  | None => None
  end.

End Torch.

(** ** The structures package ([structs]), which is not among the sources *)

Module Structs.

(** [structs.Operation], the operations that carry a regularization
    weight. *)
Inductive Operation : Set := push | pop.

(** Modelled from the spec: the regularization tracker
    ([InterfaceRegTracker], whose class is missing from the sources).  It
    holds a running sum per kind of operation; [add] adds a contribution,
    [total] is the sum of what was accumulated since the last [reset], and
    [reset] zeroes all of it. *)
Record RegTracker : Set := mkTracker {
  acc_push : float;
  acc_pop : float
}.

Definition InterfaceRegTracker : RegTracker :=
  {| acc_push := 0; acc_pop := 0 |}.

Definition reset (t : RegTracker) : RegTracker :=
  {| acc_push := 0; acc_pop := 0 |}.

Definition add (op : Operation) (v : float) (t : RegTracker) : RegTracker :=
  match op with
  | push => {| acc_push := acc_push t + v; acc_pop := acc_pop t |}
  | pop => {| acc_push := acc_push t; acc_pop := acc_pop t + v |}
  end.

Definition total (t : RegTracker) : float := (acc_push t + acc_pop t)%float.

(** Modelled from the spec: a structure ([structs.base.Struct] and its
    subclasses, missing from the sources).  Its state is sized for
    [batch_size] instances holding vectors of [vector_size]; it is
    created empty, refers to the tracker that was attached to it (by the
    tracker's place in the store), and records a weight per operation. *)
Record Struct : Set := mkStruct {
  struct_class : PyClass;
  struct_batch_size : Z;
  struct_vector_size : Z;
  struct_contents : list Torch.Tensor;
  struct_reg_tracker : option nat;
  struct_push_weight : option float;
  struct_pop_weight : option float
}.

(** The base class of all structures. *)
Definition Struct_class : PyClass :=
  {| cls_name := "structs.base.Struct"; cls_ancestors := ["object"];
     cls_builtin := false |}.

(** Modelled from the spec: [initialize(batch_size, vector_size)]
    allocates an empty state, and fails if [vector_size <= 0] or
    [batch_size <= 0]. *)
Definition initialize (cls : PyClass) (batch_size vector_size : Z)
  : Exn + Struct :=
  if ((batch_size <=? 0) || (vector_size <=? 0))%Z
  then inl (mkExn StructInitError "batch_size and vector_size must be positive")
  else inr {| struct_class := cls;
              struct_batch_size := batch_size;
              struct_vector_size := vector_size;
              struct_contents := [];
              struct_reg_tracker := None;
              struct_push_weight := None;
              struct_pop_weight := None |}.

(** Modelled from the spec: [set_regularization_tracker(tracker)] attaches
    the accumulator. *)
Definition set_reg_tracker (tracker : nat) (s : Struct) : Struct :=
  {| struct_class := struct_class s;
     struct_batch_size := struct_batch_size s;
     struct_vector_size := struct_vector_size s;
     struct_contents := struct_contents s;
     struct_reg_tracker := Some tracker;
     struct_push_weight := struct_push_weight s;
     struct_pop_weight := struct_pop_weight s |}.

(** Modelled from the spec: [set_regularization_weight(operation_kind,
    weight)] records the coefficient of that operation. *)
Definition set_reg_weight (op : Operation) (w : float) (s : Struct) : Struct :=
  {| struct_class := struct_class s;
     struct_batch_size := struct_batch_size s;
     struct_vector_size := struct_vector_size s;
     struct_contents := struct_contents s;
     struct_reg_tracker := struct_reg_tracker s;
     struct_push_weight :=
       match op with push => Some w | pop => struct_push_weight s end;
     struct_pop_weight :=
       match op with push => struct_pop_weight s | pop => Some w end |}.

Definition reg_weight (op : Operation) (s : Struct) : option float :=
  match op with
  | push => struct_push_weight s
  | pop => struct_pop_weight s
  end.

(** One penalty of [apply]: the weight of [op] times the magnitude that
    the structure measured, added to the attached tracker. *)
Definition penalize (s : Struct) (op : Operation) (magnitude : float)
    (store : list RegTracker) : list RegTracker :=
  match struct_reg_tracker s, reg_weight op s with
  | Some l, Some w =>
      match store !! l with
      | Some t => <[l := add op (w * magnitude)%float t]> store
      | None => store
      end
  | _, _ => store
  end.

(** Modelled from the spec: the side effect of [apply(control_signals)] on
    the regularization: a weighted penalty is added to the attached
    tracker for each configured operation.  The measure of magnitude is
    the structure's own, so the magnitudes are arguments. *)
Definition apply_penalties (s : Struct) (push_magnitude pop_magnitude : float)
    (store : list RegTracker) : list RegTracker :=
  penalize s pop pop_magnitude (penalize s push push_magnitude store).

End Structs.

(** ** [models/base.py]: the abstract controller *)

Module Base.

Import Torch Structs.
Local Open Scope py_scope.

(** What a concrete controller brings: its network (the object behind
    [self._network], with its method [init_network]) and its override of
    the abstract method [_init_buffer], which "initializes the input and
    output buffers".  [Net] is the state of the network object, [Buf] the
    buffers that the subclass keeps, [Xs] the type of the input [xs]. *)
Class Concrete (Net Buf Xs : Type) : Type := {
  init_buffer_override : Z -> Xs -> Buf -> Buf * (Exn + unit);
  network_init_network : Z -> Net -> Net * (Exn + unit)
}.

(** The calls that the controller makes on its collaborators, in the
    order in which they are made. *)
Inductive Call (Xs : Type) : Type :=
| NewStruct (cls : PyObj) (batch_size read_size : Z)
| SetRegTracker (tracker : nat)
| SetRegWeight (op : Operation) (weight : float)
| InitBuffer (batch_size : Z) (xs : Xs)
| InitNetwork (batch_size : Z).

Arguments NewStruct {Xs} cls batch_size read_size.
Arguments SetRegTracker {Xs} tracker.
Arguments SetRegWeight {Xs} op weight.
Arguments InitBuffer {Xs} batch_size xs.
Arguments InitNetwork {Xs} batch_size.

(** The attributes of a controller object.  [_struct_type] is whatever
    object the constructor was given.  [_reg_tracker] refers to a tracker
    of the store: the same tracker object is reachable from the controller
    and from the structure it was attached to. *)
Record Controller (Net Buf : Type) : Type := mkController {
  _struct_type : PyObj;
  _struct : option Struct;
  _network : option Net;
  _read_size : Z;
  _read : option Tensor;
  _reg_tracker : nat;
  _push_reg_weight : float;
  _pop_reg_weight : float;
  buffers : Buf
}.

Arguments mkController {Net Buf}.
Arguments _struct_type {Net Buf}.
Arguments _struct {Net Buf}.
Arguments _network {Net Buf}.
Arguments _read_size {Net Buf}.
Arguments _read {Net Buf}.
Arguments _reg_tracker {Net Buf}.
Arguments _push_reg_weight {Net Buf}.
Arguments _pop_reg_weight {Net Buf}.
Arguments buffers {Net Buf}.

(** The state in which the methods run: the store of trackers, the
    controller, and the calls made so far. *)
Record World (Net Buf Xs : Type) : Type := mkWorld {
  store : list RegTracker;
  self : Controller Net Buf;
  calls : list (Call Xs)
}.

Arguments mkWorld {Net Buf Xs}.
Arguments store {Net Buf Xs}.
Arguments self {Net Buf Xs}.
Arguments calls {Net Buf Xs}.

Section AbstractController.

Context {Net Buf Xs : Type} `{!Concrete Net Buf Xs}.

Local Abbreviation Controller := (Controller Net Buf).
Local Abbreviation World := (World Net Buf Xs).

(** The controller that lines 46 to 58 leave when line 54 has its
    tracker: the tracker is created there, once for the controller, behind
    the trackers that exist.  [own] is what the subclass keeps of its
    own. *)
Definition constructed (read_size : Z) (struct_type : PyObj)
    (push_reg_weight pop_reg_weight : float) (own : Buf)
    (trackers : list RegTracker) : World :=
  {| store := trackers ++ [InterfaceRegTracker];
     self := {| _struct_type := struct_type;
                _struct := None;
                _network := None;
                _read_size := read_size;
                _read := None;
                _reg_tracker := length trackers;
                _push_reg_weight := push_reg_weight;
                _pop_reg_weight := pop_reg_weight;
                buffers := own |};
     calls := [] |}.

(** [AbstractController.__init__], lines 45 to 58.  Line 54 evaluates the
    name [InterfaceRegTracker] in the namespace of the module and calls
    what it finds.  A name that the module does not bind is a [NameError]:
    the constructor raises and its caller gets no controller.  Bound to a
    class, the name gives the tracker; an object that is no class is taken
    not to be callable. *)
Definition __init__ (namespace : gmap string PyObj) (read_size : Z)
    (struct_type : PyObj) (push_reg_weight pop_reg_weight : float)
    (own : Buf) (trackers : list RegTracker) : Exn + World :=
  match namespace !! "InterfaceRegTracker" with
  | None =>
      inl (mkExn NameError "global name 'InterfaceRegTracker' is not defined")
  | Some (ObjClass _) =>
      inr (constructed read_size struct_type push_reg_weight pop_reg_weight
             own trackers)
  | Some _ => inl (mkExn TypeError "object is not callable")
  end.

(** The assignment [self._network = network] of a subclass. *)
Definition set_network (n : Net) (w : World) : World :=
  let c := self w in
  {| store := store w;
     self := {| _struct_type := _struct_type c;
                _struct := _struct c;
                _network := Some n;
                _read_size := _read_size c;
                _read := _read c;
                _reg_tracker := _reg_tracker c;
                _push_reg_weight := _push_reg_weight c;
                _pop_reg_weight := _pop_reg_weight c;
                buffers := buffers c |};
     calls := calls w |}.

Definition set_read (t : Tensor) (w : World) : World :=
  let c := self w in
  {| store := store w;
     self := {| _struct_type := _struct_type c;
                _struct := _struct c;
                _network := _network c;
                _read_size := _read_size c;
                _read := Some t;
                _reg_tracker := _reg_tracker c;
                _push_reg_weight := _push_reg_weight c;
                _pop_reg_weight := _pop_reg_weight c;
                buffers := buffers c |};
     calls := calls w |}.

Definition set_struct (s : option Struct) (w : World) : World :=
  let c := self w in
  {| store := store w;
     self := {| _struct_type := _struct_type c;
                _struct := s;
                _network := _network c;
                _read_size := _read_size c;
                _read := _read c;
                _reg_tracker := _reg_tracker c;
                _push_reg_weight := _push_reg_weight c;
                _pop_reg_weight := _pop_reg_weight c;
                buffers := buffers c |};
     calls := calls w |}.

Definition set_buffers (b : Buf) (w : World) : World :=
  let c := self w in
  {| store := store w;
     self := {| _struct_type := _struct_type c;
                _struct := _struct c;
                _network := _network c;
                _read_size := _read_size c;
                _read := _read c;
                _reg_tracker := _reg_tracker c;
                _push_reg_weight := _push_reg_weight c;
                _pop_reg_weight := _pop_reg_weight c;
                buffers := b |};
     calls := calls w |}.

Definition set_store (h : list RegTracker) (w : World) : World :=
  {| store := h; self := self w; calls := calls w |}.

(** A call on a collaborator is recorded when it is made. *)
Definition call (c : Call Xs) : M World unit :=
  modify (fun w => {| store := store w; self := self w;
                      calls := calls w ++ [c] |}).

(** A method call on the structure behind [self._struct]. *)
Definition on_struct (f : Struct -> Struct) : M World unit :=
  modify (fun w => set_struct (f <$> _struct (self w)) w).

(** The message of the structure-type check, line 72.  It is formatted
    after [issubclass] has returned, hence for a class only. *)
Definition not_a_struct (c : Controller) : Exn :=
  mkExn ValueError
    (match _struct_type c with
     | ObjClass cls => class_str cls
     | _ => "<object>"
     end +:+ " is not a Struct").

(** The call [self._struct_type(batch_size, self._read_size)], line 75: a
    class is instantiated by its constructor.  The line is reached after
    [issubclass] has returned, hence for a class only. *)
Definition construct (struct_type : PyObj) (batch_size read_size : Z)
  : Exn + Struct :=
  match struct_type with
  | ObjClass cls => initialize cls batch_size read_size
  | _ => inl (mkExn TypeError "object is not callable")
  end.

(** [_init_struct], lines 71 to 78.  [issubclass] raises its [TypeError]
    on a [_struct_type] that is not a class. *)
Definition _init_struct (batch_size : Z) : M World unit :=
  w <- get ;;
  let c := self w in
  sub <- lift (issubclass_obj (_struct_type c) Struct_class) ;;
  if negb sub
  then raise (not_a_struct c)
  else
    z <- lift (zeros batch_size (_read_size c)) ;;
    modify (set_read z) ;;;
    call (NewStruct (_struct_type c) batch_size (_read_size c)) ;;;
    s <- lift (construct (_struct_type c) batch_size (_read_size c)) ;;
    modify (set_struct (Some s)) ;;;
    call (SetRegTracker (_reg_tracker c)) ;;;
    on_struct (set_reg_tracker (_reg_tracker c)) ;;;
    call (SetRegWeight push (_push_reg_weight c)) ;;;
    on_struct (set_reg_weight push (_push_reg_weight c)) ;;;
    call (SetRegWeight pop (_pop_reg_weight c)) ;;;
    on_struct (set_reg_weight pop (_pop_reg_weight c)).

(** [_init_buffer], lines 81 to 98, as overridden by the subclass: the
    override works on the buffers. *)
Definition _init_buffer (batch_size : Z) (xs : Xs) : M World unit :=
  call (InitBuffer batch_size xs) ;;;
  fun w =>
    let (b, r) := init_buffer_override batch_size xs (buffers (self w)) in
    (set_buffers b w, r).

(** [_init_network], line 110: [self._network.init_network(batch_size)].
    The attribute is [None] until a subclass assigns it. *)
Definition _init_network (batch_size : Z) : M World unit :=
  w <- get ;;
  match _network (self w) with
  | None =>
      raise (mkExn AttributeError
               "'NoneType' object has no attribute 'init_network'")
  | Some n =>
      call (InitNetwork batch_size) ;;;
      fun w =>
        let (n', r) := network_init_network batch_size n in
        (set_network n' w, r)
  end.

(** [init_controller], lines 124 to 126. *)
Definition init_controller (batch_size : Z) (xs : Xs) : M World unit :=
  _init_struct batch_size ;;;
  _init_buffer batch_size xs ;;;
  _init_network batch_size.

(** The binding of the keyword arguments of a call
    [f(batch_size, **kwargs)] on a bound method: a keyword that names
    [self] or [batch_size] gives that parameter a second value, another
    keyword that names no parameter is unexpected, and a parameter without
    value is missing.  All three are a [TypeError], whose text names the
    function called. *)
Definition multiple_values (f : string) : Exn :=
  mkExn TypeError (f +:+ "() got multiple values for keyword argument").

Definition unexpected_keyword (f : string) : Exn :=
  mkExn TypeError (f +:+ "() got an unexpected keyword argument").

Definition missing_argument (f : string) : Exn :=
  mkExn TypeError (f +:+ "() takes exactly 3 arguments").

Definition clashes (kwargs : gmap string Xs) : bool :=
  bool_decide (is_Some (kwargs !! "self"))
  || bool_decide (is_Some (kwargs !! "batch_size")).

(** The call [self.init_controller(batch_size, **kwargs)]. *)
Definition call_init_controller (batch_size : Z) (kwargs : gmap string Xs)
  : M World unit :=
  if clashes kwargs then raise (multiple_values "init_controller")
  else if negb (bool_decide (delete "xs" kwargs = ∅))
  then raise (unexpected_keyword "init_controller")
  else match kwargs !! "xs" with
       | None => raise (missing_argument "init_controller")
       | Some xs => init_controller batch_size xs
       end.

(** [init_stack], lines 170 and 171: every keyword that is not a
    parameter of [init_stack] itself is collected in [kwargs] and handed
    on. *)
Definition init_stack (batch_size : Z) (kwargs : gmap string Xs)
  : M World unit :=
  if clashes kwargs then raise (multiple_values "init_stack")
  else call_init_controller batch_size kwargs.

(** [get_and_reset_reg_loss], lines 173 to 175. *)
Definition get_and_reset_reg_loss : M World float := ret 0%float.

(** [get_read_size], line 146, and the property [struct_type]. *)
Definition get_read_size : M World Z :=
  w <- get ;; ret (_read_size (self w)).

Definition struct_type : M World PyObj :=
  w <- get ;; ret (_struct_type (self w)).

(** The tracker that the controller holds, and the one attached to its
    structure. *)
Definition own_tracker (w : World) : option RegTracker :=
  store w !! _reg_tracker (self w).

Definition attached_tracker (w : World) : option RegTracker :=
  s ← _struct (self w); l ← struct_reg_tracker s; store w !! l.

(** What the initialisation of the structure decides: the store of
    trackers, the structure, the read vector and the tracker that the
    controller holds. *)
Definition struct_state (w : World)
  : list RegTracker * option Struct * option Tensor * nat :=
  (store w, _struct (self w), _read (self w), _reg_tracker (self w)).

(** Successive batches on one controller: each one starts with
    [init_controller], whatever the previous one has left. *)
Fixpoint batches (l : list (Z * Xs)) (w : World) : World :=
  match l with
  | [] => w
  | (batch_size, xs) :: l' => batches l' (fst (init_controller batch_size xs w))
  end.

(** A step of the structure seen from the regularization: the
    structure of the controller applies control signals of the given
    magnitudes. *)
Definition struct_apply (push_magnitude pop_magnitude : float) (w : World)
  : World :=
  match _struct (self w) with
  | Some s => set_store (apply_penalties s push_magnitude pop_magnitude (store w)) w
  | None => w
  end.

End AbstractController.

End Base.

(** ** [run.py]: the command line *)

Module Run.

Local Open Scope py_scope.

(** The classes that [run.py] names; [Task] is named after the package it
    is imported from. *)
Definition Task : PyClass :=
  {| cls_name := "tasks.Task"; cls_ancestors := ["object"];
     cls_builtin := false |}.

Definition AbstractController : PyClass :=
  {| cls_name := "models.base.AbstractController";
     cls_ancestors := ["torch.nn.modules.module.Module"; "object"];
     cls_builtin := false |}.

Definition dict : PyClass :=
  {| cls_name := "dict"; cls_ancestors := ["object"];
     cls_builtin := true |}.

(** What [get_args] returns, lines 20 to 31: [task] is required, the
    others default to [None]. *)
Record Args : Set := mkArgs {
  task : string;
  config : option string;
  loadpath : option string;
  savepath : option string;
  controller : option string
}.

(** The uses of the registry [globals()], in the order in which they are
    made. *)
Inductive Access : Set :=
| Contains (name : string)
| GetItem (name : string).

(** [arg in globals()] *)
Definition contains (globals : gmap string PyObj) (name : string)
  : M (list Access) bool :=
  fun log => (log ++ [Contains name], inr (bool_decide (is_Some (globals !! name)))).

(** [globals()[arg]] *)
Definition getitem (globals : gmap string PyObj) (name : string)
  : M (list Access) PyObj :=
  fun log =>
    (log ++ [GetItem name],
     match globals !! name with
     | Some obj => inr obj
     | None => inl (mkExn KeyError name)
     end).

(** [get_object_from_arg], lines 41 to 48. *)
Definition get_object_from_arg (globals : gmap string PyObj)
    (arg : option string) (superclass : PyClass) (default : PyObj)
  : M (list Access) PyObj :=
  match arg with
  | None => ret default
  | Some name =>
      found <- contains globals name ;;
      if negb found
      then raise (mkExn ValueError ("Invalid argument " +:+ name))
      else
        obj <- getitem globals name ;;
        sub <- lift (issubclass_obj obj superclass) ;;
        if negb sub
        then raise (mkExn ValueError
                      (name +:+ " is not a " +:+ class_str superclass))
        else ret obj
  end.

(** The assignment [config[key] = value]. *)
Definition setitem {S} (config : PyObj) (key : string) (value : PyObj)
  : M S PyObj :=
  match config with
  | ObjDict d => ret (ObjDict (<[key := value]> d))
  | _ => raise (mkExn TypeError "object does not support item assignment")
  end.

(** Line 66: the task is built from the entries of [config] as keyword
    arguments and its [run_experiment] is called.  The result is the task
    class and those keyword arguments; what the experiment does is the
    task's own. *)
Definition run_experiment {S} (task config : PyObj)
  : M S (PyClass * gmap string PyObj) :=
  match task, config with
  | ObjClass c, ObjDict d => ret (c, d)
  | ObjClass _, _ => raise (mkExn TypeError "argument after ** must be a mapping")
  | _, _ => raise (mkExn TypeError "object is not callable")
  end.

(** The body of [__main__], lines 53 to 66. *)
Definition main (globals : gmap string PyObj) (args : Args)
  : M (list Access) (PyClass * gmap string PyObj) :=
  task_ <- get_object_from_arg globals (Some (task args)) Task ObjNone ;;
  config_ <- get_object_from_arg globals (config args) dict (ObjDict ∅) ;;
  controller_ <- get_object_from_arg globals (controller args)
                   AbstractController ObjNone ;;
  config_ <- match controller_ with
             | ObjNone => ret config_
             | _ => setitem config_ "model_type" controller_
             end ;;
  config_ <- match loadpath args with
             | Some path => setitem config_ "load_path" (ObjStr path)
             | None => ret config_
             end ;;
  config_ <- match savepath args with
             | Some path => setitem config_ "save_path" (ObjStr path)
             | None => ret config_
             end ;;
  run_experiment task_ config_.

(** The entries of [base] with the three overrides of the command line on
    top: the controller class under [model_type] and the two paths. *)
Definition with_path (key : string) (path : option string)
    (d : gmap string PyObj) : gmap string PyObj :=
  match path with
  | Some p => <[key := ObjStr p]> d
  | None => d
  end.

Definition with_controller (c : option PyClass) (d : gmap string PyObj)
  : gmap string PyObj :=
  match c with
  | Some cls => <["model_type" := ObjClass cls]> d
  | None => d
  end.

Definition overridden (args : Args) (c : option PyClass)
    (base : gmap string PyObj) : gmap string PyObj :=
  with_path "save_path" (savepath args)
    (with_path "load_path" (loadpath args) (with_controller c base)).

End Run.

(** ** [tasks/configs.py]: the named configurations *)

Module Configs.

Import Run.

(** Lines 16 to 20.  The grammars come from [formalisms.cfg]. *)
Definition dyck_config : gmap string PyObj :=
  <["grammar" := ObjOther "dyck_grammar"]>
  (<["to_predict" := ObjList [ObjStr ")"; ObjStr "]"]]>
  (<["sample_depth" := ObjInt 5]> ∅)).

(** Lines 23 to 27. *)
Definition reverse_config : gmap string PyObj :=
  <["grammar" := ObjOther "reverse_grammar"]>
  (<["to_predict" := ObjList [ObjStr "a1"; ObjStr "b1"]]>
  (<["sample_depth" := ObjInt 12]> ∅)).

(** Lines 30 to 34. *)
Definition agreement_config : gmap string PyObj :=
  <["grammar" := ObjOther "agreement_grammar"]>
  (<["to_predict" := ObjList [ObjStr "Auxsing"; ObjStr "Auxplur"]]>
  (<["sample_depth" := ObjInt 8]> ∅)).

End Configs.

(** ** Concrete controllers, batches and registries *)

Module Examples.

Import Torch Structs Base Run Configs.

(** A controller whose buffers are the input sequence and the outputs
    produced so far, and whose network keeps the batch size of its hidden
    state. *)
#[export] Instance buffered : Concrete Z (list Tensor * list Tensor) (list Tensor) := {
  init_buffer_override _ xs _ := ((xs, []), inr tt);
  network_init_network batch_size _ := (batch_size, inr tt)
}.

Definition Stack : PyClass :=
  {| cls_name := "structs.simple.Stack";
     cls_ancestors := ["structs.base.Struct"; "object"];
     cls_builtin := false |}.

Definition xs0 : list Tensor :=
  [ {| shape := (1, 2)%Z; rows := [[1; 0]%float] |} ].

(** A controller of a stack with read size 2 and both weights 1, with the
    attributes that the constructor assigns, and given a network. *)
Definition built : World Z (list Tensor * list Tensor) (list Tensor) :=
  set_network 0%Z (constructed 2 (ObjClass Stack) 1 1 ([], []) []).

(** The first batch: initialisation, then one step of the structure that
    measures a magnitude of one half for each operation. *)
Definition batch1 := fst (init_controller 1 xs0 built).

Definition used := struct_apply 0.5 0.5 batch1.

(** The second batch. *)
Definition batch2 := fst (init_controller 1 xs0 used).

(** A controller configured with a class that is not a structure. *)
Definition misconfigured : World Z (list Tensor * list Tensor) (list Tensor) :=
  set_network 0%Z (constructed 2 (ObjClass AbstractController) 0 0 ([], []) []).


(** Names that the sources show to be bound in the module [run.py]: its
    own functions and imports, the configurations of [tasks/configs.py],
    the two classes that [__main__] names, and the classes of the usage
    examples in its docstring. *)
Definition CFGTask : PyClass :=
  {| cls_name := "tasks.CFGTask"; cls_ancestors := ["tasks.Task"; "object"];
     cls_builtin := false |}.

Definition ReverseTask : PyClass :=
  {| cls_name := "tasks.ReverseTask"; cls_ancestors := ["tasks.Task"; "object"];
     cls_builtin := false |}.

Definition BufferedController : PyClass :=
  {| cls_name := "models.BufferedController";
     cls_ancestors := ["models.base.AbstractController";
                       "torch.nn.modules.module.Module"; "object"];
     cls_builtin := false |}.

Definition run_globals : gmap string PyObj :=
  list_to_map
    [ ("argparse", ObjModule "argparse");
      ("inspect", ObjModule "inspect");
      ("get_args", ObjFunction "get_args");
      ("get_object_from_arg", ObjFunction "get_object_from_arg");
      ("Task", ObjClass Task);
      ("CFGTask", ObjClass CFGTask);
      ("ReverseTask", ObjClass ReverseTask);
      ("AbstractController", ObjClass AbstractController);
      ("BufferedController", ObjClass BufferedController);
      ("dyck_config", ObjDict dyck_config);
      ("reverse_config", ObjDict reverse_config);
      ("agreement_config", ObjDict agreement_config) ].

(** [python run.py dyck_config] *)
Definition args_config_as_task : Args :=
  {| task := "dyck_config"; config := None; loadpath := None;
     savepath := None; controller := None |}.

(** [python run.py CFGTask --config dyck_config], the second usage example
    of the docstring of [run.py]. *)
Definition args_dyck : Args :=
  {| task := "CFGTask"; config := Some "dyck_config"; loadpath := None;
     savepath := None; controller := None |}.

(** [python run.py ReverseTask --controller BufferedController
    --savepath out] *)
Definition args_reverse : Args :=
  {| task := "ReverseTask"; config := None; loadpath := None;
     savepath := Some "out"; controller := Some "BufferedController" |}.

(** [python run.py ReverseTask], the first usage example. *)
Definition args_plain : Args :=
  {| task := "ReverseTask"; config := None; loadpath := None;
     savepath := None; controller := None |}.

End Examples.

(** ** The methods of a controller, called one after the other *)

Module Methods.

Import Torch Structs Base.

(** [AbstractController._init_buffer] and [forward] as the base class has
    them, lines 98 and 141: a subclass that does not override
    [_init_buffer] gets the method that raises, which leaves the buffers
    alone. *)
Definition missing_init_buffer : Exn :=
  mkExn NotImplementedError "Missing implementation for _init_buffer".

Definition missing_forward : Exn :=
  mkExn NotImplementedError "Missing implementation for forward".

Definition not_overridden {Net Buf Xs : Type}
    (init_network : Z -> Net -> Net * (Exn + unit)) : Concrete Net Buf Xs :=
  {| init_buffer_override := fun _ _ b => (b, inl missing_init_buffer);
     network_init_network := init_network |}.

(** The methods that [AbstractController] itself defines for its callers. *)
Inductive Method (Xs : Type) : Type :=
| InitController (batch_size : Z) (xs : Xs)
| InitStack (batch_size : Z) (kwargs : gmap string Xs)
| GetAndResetRegLoss
| GetReadSize
| StructType
| Forward
| Trace.

Arguments InitController {Xs} batch_size xs.
Arguments InitStack {Xs} batch_size kwargs.
Arguments GetAndResetRegLoss {Xs}.
Arguments GetReadSize {Xs}.
Arguments StructType {Xs}.
Arguments Forward {Xs}.
Arguments Trace {Xs}.

Section Invocation.

Context {Net Buf Xs : Type} `{!Concrete Net Buf Xs}.

(** [forward], line 141, as the base class has it. *)
Definition forward : M (World Net Buf Xs) Tensor := raise missing_forward.

(** [trace], line 166: [pass]. *)
Definition trace : M (World Net Buf Xs) unit := ret tt.

(** The state that a call leaves, whether it returns or raises. *)
Definition invoke (m : Method Xs) (w : World Net Buf Xs) : World Net Buf Xs :=
  match m with
  | InitController batch_size xs => fst (init_controller batch_size xs w)
  | InitStack batch_size kwargs => fst (init_stack batch_size kwargs w)
  | GetAndResetRegLoss => fst (get_and_reset_reg_loss w)
  | GetReadSize => fst (get_read_size w)
  | StructType => fst (struct_type w)
  | Forward => fst (forward w)
  | Trace => fst (trace w)
  end.

Definition invoke_all (ms : list (Method Xs)) (w : World Net Buf Xs)
  : World Net Buf Xs :=
  fold_left (fun w m => invoke m w) ms w.

End Invocation.

(** A controller of a stack whose class does not override [_init_buffer],
    and the controller of the examples before its network is assigned. *)
Definition plain : Concrete Z (list Tensor * list Tensor) (list Tensor) :=
  not_overridden (fun batch_size _ => (batch_size, inr tt)).

Definition unwired : World Z (list Tensor * list Tensor) (list Tensor) :=
  constructed 2 (ObjClass Examples.Stack) 1 1 ([], []) [].

(** The names that [models/base.py] binds in its namespace, lines 1 to 13:
    its imports and the class it defines.  [InterfaceRegTracker] is not
    among them, and it is no builtin. *)
Definition base_namespace : gmap string PyObj :=
  list_to_map
    [ ("division", ObjOther "__future__.division");
      ("ABCMeta", ObjClass {| cls_name := "abc.ABCMeta";
                              cls_ancestors := ["type"; "object"];
                              cls_builtin := false |});
      ("abstractmethod", ObjFunction "abstractmethod");
      ("torch", ObjModule "torch");
      ("nn", ObjModule "torch.nn");
      ("Variable", ObjClass {| cls_name := "torch.autograd.variable.Variable";
                               cls_ancestors := ["object"];
                               cls_builtin := false |});
      ("Operation", ObjOther "structs.Operation");
      ("Struct", ObjClass Struct_class);
      ("AbstractController", ObjClass Run.AbstractController) ].

(** A namespace in which the name is bound to a class, as an import of
    the tracker's class would leave it. *)
Definition namespace_with_tracker : gmap string PyObj :=
  <["InterfaceRegTracker" :=
      ObjClass {| cls_name := "InterfaceRegTracker";
                  cls_ancestors := ["object"];
                  cls_builtin := false |}]> base_namespace.

(** [python run.py NoSuchTask --controller BufferedController] and
    [python run.py ReverseTask --controller NoSuchController] *)
Definition args_unknown_task : Run.Args :=
  {| Run.task := "NoSuchTask"; Run.config := None; Run.loadpath := None;
     Run.savepath := None; Run.controller := Some "BufferedController" |}.

Definition args_unknown_controller : Run.Args :=
  {| Run.task := "ReverseTask"; Run.config := None; Run.loadpath := None;
     Run.savepath := None; Run.controller := Some "NoSuchController" |}.

End Methods.

(** * Properties *)

Import Torch Structs Base Run Configs Examples.

Local Open Scope py_scope.

Arguments zeros : simpl never.
Arguments initialize : simpl never.
Arguments issubclass : simpl never.
Arguments issubclass_obj !obj superclass /.
Arguments construct !struct_type batch_size read_size /.
Arguments not_a_struct : simpl never.
Arguments _init_struct : simpl never.
Arguments _init_buffer : simpl never.
Arguments _init_network : simpl never.
Arguments init_controller : simpl never.

(** Unfolding of the statements of the controller. *)
Ltac unfold_py :=
  unfold init_controller, _init_struct, _init_buffer, _init_network,
    call, on_struct, returned, raised, bind, ret, raise, get, modify, lift
    in *.

(** Two floats with different classifications are different. *)
Lemma float_neq (x y : float) :
  PrimFloat.is_zero x <> PrimFloat.is_zero y -> x <> y.
Proof. intros Hne ->. now apply Hne. Qed.

(** ** Tensors and structures *)

Lemma zeros_inv (n m : Z) (t : Tensor) :
  zeros n m = inr t ->
  (0 <= n)%Z /\ (0 <= m)%Z
  /\ t = {| shape := (n, m); rows := repeat (row_of_zeros m) (Z.to_nat n) |}.
Proof.
  unfold zeros. destruct (n <? 0)%Z eqn:Hn; destruct (m <? 0)%Z eqn:Hm;
    cbn; try discriminate.
  intros [= <-]. repeat split; lia.
Qed.

Lemma zeros_nonneg (n m : Z) :
  (0 <= n)%Z -> (0 <= m)%Z ->
  zeros n m = inr {| shape := (n, m);
                     rows := repeat (row_of_zeros m) (Z.to_nat n) |}.
Proof.
  intros Hn Hm. unfold zeros.
  destruct (Z.ltb_spec n 0); [lia |]. destruct (Z.ltb_spec m 0); [lia |].
  reflexivity.
Qed.

Lemma nth_error_repeat_lt {A} (x : A) (n i : nat) :
  (i < n)%nat -> nth_error (repeat x n) i = Some x.
Proof.
  revert i. induction n as [| n IH]; intros [| i] Hi; cbn; try lia; auto.
  apply IH. lia.
Qed.

Lemma zeros_entry (n m : Z) (t : Tensor) (i j : nat) :
  zeros n m = inr t ->
  (i < Z.to_nat n)%nat -> (j < Z.to_nat m)%nat ->
  entry t i j = Some 0%float.
Proof.
  intros Ht Hi Hj. apply zeros_inv in Ht as (_ & _ & ->).
  unfold entry; cbn. rewrite nth_error_repeat_lt by assumption.
  unfold row_of_zeros. now apply nth_error_repeat_lt.
Qed.

Lemma zeros_rows (n m : Z) (t : Tensor) :
  zeros n m = inr t ->
  length (rows t) = Z.to_nat n
  /\ Forall (fun r => length r = Z.to_nat m) (rows t).
Proof.
  intros Ht. apply zeros_inv in Ht as (_ & _ & ->). cbn. split.
  - apply repeat_length.
  - apply Forall_forall. intros r Hr. apply list_elem_of_In, repeat_spec in Hr as ->.
    apply repeat_length.
Qed.

Lemma initialize_inv (cls : PyClass) (b r : Z) (s : Struct) :
  initialize cls b r = inr s ->
  (0 < b)%Z /\ (0 < r)%Z /\ struct_class s = cls
  /\ struct_batch_size s = b /\ struct_vector_size s = r
  /\ struct_contents s = [] /\ struct_reg_tracker s = None.
Proof.
  unfold initialize.
  destruct (Z.leb_spec b 0); destruct (Z.leb_spec r 0); cbn; try discriminate.
  intros [= <-]. cbn. repeat split; auto.
Qed.

Lemma initialize_positive (cls : PyClass) (b r : Z) :
  (0 < b)%Z -> (0 < r)%Z -> exists s, initialize cls b r = inr s.
Proof.
  intros Hb Hr. unfold initialize.
  destruct (Z.leb_spec b 0); [lia |]. destruct (Z.leb_spec r 0); [lia |].
  cbn. eauto.
Qed.

Lemma initialize_fails (cls : PyClass) (b r : Z) :
  (b <= 0 \/ r <= 0)%Z ->
  initialize cls b r
  = inl (mkExn StructInitError "batch_size and vector_size must be positive").
Proof.
  intros H. unfold initialize.
  destruct (Z.leb_spec b 0); destruct (Z.leb_spec r 0); cbn; auto; lia.
Qed.

(** The constructor is called on a class. *)
Lemma construct_inv (o : PyObj) (b r : Z) (s : Struct) :
  construct o b r = inr s ->
  (0 < b)%Z /\ (0 < r)%Z /\ o = ObjClass (struct_class s)
  /\ struct_batch_size s = b /\ struct_vector_size s = r
  /\ struct_contents s = [] /\ struct_reg_tracker s = None.
Proof.
  destruct o; cbn; try discriminate.
  intros H. apply initialize_inv in H as (? & ? & <- & ? & ? & ? & ?).
  repeat split; auto.
Qed.

Lemma issubclass_obj_inv (o : PyObj) (superclass : PyClass) (v : bool) :
  issubclass_obj o superclass = inr v ->
  exists c, o = ObjClass c /\ issubclass c superclass = v.
Proof. destruct o; cbn; try discriminate. intros [= <-]. eauto. Qed.

Lemma construct_positive (o : PyObj) (superclass : PyClass) (v : bool)
    (b r : Z) :
  issubclass_obj o superclass = inr v ->
  (0 < b)%Z -> (0 < r)%Z -> exists s, construct o b r = inr s.
Proof.
  intros (c & -> & _)%issubclass_obj_inv Hb Hr. cbn.
  now apply initialize_positive.
Qed.

Lemma construct_fails (o : PyObj) (superclass : PyClass) (v : bool)
    (b r : Z) :
  issubclass_obj o superclass = inr v ->
  (b <= 0 \/ r <= 0)%Z ->
  construct o b r
  = inl (mkExn StructInitError "batch_size and vector_size must be positive").
Proof.
  intros (c & -> & _)%issubclass_obj_inv H. cbn. now apply initialize_fails.
Qed.

(** ** The batch lifecycle of a controller *)

Section Controller.

Context {Net Buf Xs : Type} `{!Concrete Net Buf Xs}.

Implicit Types (w : World Net Buf Xs) (b : Z) (xs : Xs).

(** The structure-type check comes first: a class that is not a structure
    stops [_init_struct] before any assignment. *)
Lemma _init_struct_rejects w b :
  issubclass_obj (_struct_type (self w)) Struct_class = inr false ->
  _init_struct b w = (w, inl (not_a_struct (self w))).
Proof. intros Hsub. unfold_py. cbn. now rewrite Hsub. Qed.

(** What a run of [_init_struct] that returns has done. *)
Lemma _init_struct_returns w b :
  returned (_init_struct b w) = Some tt ->
  issubclass_obj (_struct_type (self w)) Struct_class = inr true
  /\ exists z s,
      zeros b (_read_size (self w)) = inr z
      /\ construct (_struct_type (self w)) b (_read_size (self w)) = inr s
      /\ store (fst (_init_struct b w)) = store w
      /\ _read (self (fst (_init_struct b w))) = Some z
      /\ _struct (self (fst (_init_struct b w)))
         = Some (set_reg_weight pop (_pop_reg_weight (self w))
                  (set_reg_weight push (_push_reg_weight (self w))
                    (set_reg_tracker (_reg_tracker (self w)) s)))
      /\ calls (fst (_init_struct b w))
         = calls w ++ [NewStruct (_struct_type (self w)) b (_read_size (self w));
                       SetRegTracker (_reg_tracker (self w));
                       SetRegWeight push (_push_reg_weight (self w));
                       SetRegWeight pop (_pop_reg_weight (self w))].
Proof.
  unfold_py. cbn.
  destruct (issubclass_obj _ _) as [? | [|]]; cbn;
    [ discriminate | | discriminate ].
  destruct (zeros _ _) as [e | z]; cbn; [ discriminate |].
  destruct (construct _ _ _) as [e | s]; cbn; [ discriminate |].
  intros _. split; [ reflexivity |]. exists z, s.
  repeat split. now rewrite <- !app_assoc.
Qed.

(** The two other steps leave alone what [_init_struct] has set up. *)
Lemma _init_buffer_frame w b xs :
  struct_state (fst (_init_buffer b xs w)) = struct_state w
  /\ _network (self (fst (_init_buffer b xs w))) = _network (self w)
  /\ calls (fst (_init_buffer b xs w)) = calls w ++ [InitBuffer b xs].
Proof.
  unfold_py. cbn.
  destruct (init_buffer_override _ _ _) as [buf r]. cbn. auto.
Qed.

Lemma _init_network_frame w b :
  struct_state (fst (_init_network b w)) = struct_state w
  /\ (returned (_init_network b w) = Some tt ->
      calls (fst (_init_network b w)) = calls w ++ [InitNetwork b]).
Proof.
  unfold_py. cbn. destruct (_network (self w)) as [n |]; cbn.
  - destruct (network_init_network _ _) as [n' r]. cbn. auto.
  - split; [ reflexivity | discriminate ].
Qed.

(** A statement after which another one has returned has returned too. *)
Lemma bind_returned {S A B} (m : M S A) (k : A -> M S B) (s : S) (v : B) :
  returned (bind m k s) = Some v ->
  exists a, m s = (fst (m s), inr a) /\ bind m k s = k a (fst (m s)).
Proof.
  unfold returned, bind. destruct (m s) as [s' [e | a]]; cbn.
  - discriminate.
  - intros _. now exists a.
Qed.

Lemma bind_raised {S A B} (m : M S A) (k : A -> M S B) (s : S) (e : Exn) :
  raised (m s) = Some e -> bind m k s = (fst (m s), inl e).
Proof.
  unfold raised, bind. destruct (m s) as [s' [e' | a]]; cbn.
  - now intros [= ->].
  - discriminate.
Qed.

(** What a run of [init_controller] that returns has done after
    [_init_struct]. *)
Lemma init_controller_returns w b xs :
  returned (init_controller b xs w) = Some tt ->
  returned (_init_struct b w) = Some tt
  /\ struct_state (fst (init_controller b xs w))
     = struct_state (fst (_init_struct b w))
  /\ calls (fst (init_controller b xs w))
     = calls (fst (_init_struct b w)) ++ [InitBuffer b xs; InitNetwork b].
Proof.
  intros Hret. unfold init_controller in *.
  destruct (bind_returned _ _ _ _ Hret) as ([] & Hs & Hbind).
  rewrite Hbind in *. clear Hbind.
  destruct (bind_returned _ _ _ _ Hret) as ([] & Hb & Hbind).
  rewrite Hbind in *. clear Hbind.
  set (w1 := fst (_init_struct b w)) in *.
  destruct (_init_buffer_frame w1 b xs) as (Hfb & _ & Hcb).
  set (w2 := fst (_init_buffer b xs w1)) in *.
  destruct (_init_network_frame w2 b) as (Hfn & Hcn).
  split; [ unfold returned; now rewrite Hs |].
  split; [ congruence |].
  rewrite (Hcn Hret), Hcb, <- app_assoc. reflexivity.
Qed.

(** [_init_struct] never touches the store, the tracker that the
    controller holds, its configuration, its network or its buffers. *)
Lemma _init_struct_frame w b :
  store (fst (_init_struct b w)) = store w
  /\ _reg_tracker (self (fst (_init_struct b w))) = _reg_tracker (self w)
  /\ _network (self (fst (_init_struct b w))) = _network (self w)
  /\ buffers (self (fst (_init_struct b w))) = buffers (self w).
Proof.
  unfold_py. cbn.
  destruct (issubclass_obj _ _) as [? | [|]]; cbn; auto.
  destruct (zeros _ _) as [e | z]; cbn; auto.
  destruct (construct _ _ _) as [e | s]; cbn; auto.
Qed.

Lemma init_controller_frame w b xs :
  store (fst (init_controller b xs w)) = store w
  /\ _reg_tracker (self (fst (init_controller b xs w))) = _reg_tracker (self w).
Proof.
  destruct (_init_struct_frame w b) as (Hs & Ht & _).
  unfold init_controller, bind.
  destruct (_init_struct b w) as [w1 [e | []]]; cbn in *; auto.
  destruct (_init_buffer_frame w1 b xs) as (Hfb & _).
  destruct (_init_buffer b xs w1) as [w2 [e | []]]; cbn in *.
  - injection Hfb as Hfb1 _ _ Hfb2. split; congruence.
  - destruct (_init_network_frame w2 b) as (Hfn & _).
    injection Hfb as Hfb1 _ _ Hfb2. injection Hfn as Hfn1 _ _ Hfn2.
    split; congruence.
Qed.

(** When the type is a structure, the sizes are positive, the override of
    the subclass and the network's initialisation return, the whole
    initialisation returns. *)
Lemma init_controller_succeeds w b xs n :
  issubclass_obj (_struct_type (self w)) Struct_class = inr true ->
  (0 < b)%Z -> (0 < _read_size (self w))%Z ->
  snd (init_buffer_override b xs (buffers (self w))) = inr tt ->
  _network (self w) = Some n ->
  snd (network_init_network b n) = inr tt ->
  returned (init_controller b xs w) = Some tt.
Proof.
  intros Hsub Hb Hr Hbuf Hn Hnet. unfold_py. cbn. rewrite Hsub. cbn.
  rewrite zeros_nonneg by lia. cbn.
  destruct (construct_positive _ _ _ b (_read_size (self w)) Hsub Hb Hr)
    as [s ->]. cbn.
  destruct (init_buffer_override _ _ _) as [buf r]. cbn in *. subst r.
  rewrite Hn. cbn.
  destruct (network_init_network _ _) as [n' r]. cbn in *. now subst r.
Qed.

(** C2 (amended): in every sequence of batch initialisations on one
    controller, no call to [init_controller] creates or resets a tracker:
    the store of trackers and the tracker that the controller holds since
    its construction stay as they were, and a call that returns has
    attached that one tracker, with whatever it has accumulated, to the
    newly created structure. *)
Theorem init_controller_keeps_tracker w (l : list (Z * Xs)) b xs :
  let w1 := batches l w in
  let w2 := fst (init_controller b xs w1) in
  store w2 = store w
  /\ _reg_tracker (self w2) = _reg_tracker (self w)
  /\ own_tracker w2 = own_tracker w
  /\ (returned (init_controller b xs w1) = Some tt ->
      (exists s, _struct (self w2) = Some s
                 /\ struct_reg_tracker s = Some (_reg_tracker (self w))
                 /\ struct_contents s = [])
      /\ attached_tracker w2 = own_tracker w).
Proof.
  revert w. induction l as [| [b' xs'] l IH]; intros w; cbn.
  - destruct (init_controller_frame w b xs) as (Hs & Ht).
    assert (Hown : own_tracker (fst (init_controller b xs w)) = own_tracker w)
      by (unfold own_tracker; now rewrite Hs, Ht).
    split; [ exact Hs |]. split; [ exact Ht |]. split; [ exact Hown |].
    intros Hret.
    apply init_controller_returns in Hret as (Hret & Hst & _).
    apply _init_struct_returns in Hret
      as (_ & z & s & _ & Hinit & _ & _ & Hstruct & _).
    injection Hst as _ Hst _ _.
    apply construct_inv in Hinit as (_ & _ & _ & _ & _ & Hc & _).
    split.
    + rewrite Hst, Hstruct. eexists. split; [ reflexivity |]. cbn. auto.
    + unfold attached_tracker, own_tracker. rewrite Hst, Hstruct, Hs.
      reflexivity.
  - destruct (init_controller_frame w b' xs') as (Hs & Ht).
    specialize (IH (fst (init_controller b' xs' w))). cbn in IH.
    unfold own_tracker in *. rewrite Hs, Ht in IH. exact IH.
Qed.

(** C3: a call [init_controller(batch_size, xs)] that returns has done
    three things, in this order and with no other call in between.  First
    the structure: it is created from [batch_size] and the configured read
    size and gets the tracker, the push weight and the pop weight.  Second
    the buffers: they are what the override of [_init_buffer] makes of the
    buffers as they were, for [batch_size] and [xs].  Third the network:
    it is what [init_network] makes of the network as it was, for
    [batch_size]. *)
Theorem init_controller_order w b xs :
  returned (init_controller b xs w) = Some tt ->
  calls (fst (init_controller b xs w))
  = calls w ++ [NewStruct (_struct_type (self w)) b (_read_size (self w));
                SetRegTracker (_reg_tracker (self w));
                SetRegWeight push (_push_reg_weight (self w));
                SetRegWeight pop (_pop_reg_weight (self w));
                InitBuffer b xs;
                InitNetwork b]
  /\ (exists s, _struct (self (fst (init_controller b xs w))) = Some s
       /\ struct_batch_size s = b
       /\ struct_vector_size s = _read_size (self w)
       /\ struct_reg_tracker s = Some (_reg_tracker (self w))
       /\ struct_push_weight s = Some (_push_reg_weight (self w))
       /\ struct_pop_weight s = Some (_pop_reg_weight (self w)))
  /\ init_buffer_override b xs (buffers (self w))
     = (buffers (self (fst (init_controller b xs w))), inr tt)
  /\ exists n n',
       _network (self w) = Some n
       /\ network_init_network b n = (n', inr tt)
       /\ _network (self (fst (init_controller b xs w))) = Some n'.
Proof.
  unfold_py. cbn.
  destruct (issubclass_obj _ _) as [? | [|]]; cbn;
    [ discriminate | | discriminate ].
  destruct (zeros _ _) as [e | z]; cbn; [ discriminate |].
  destruct (construct _ _ _) as [e | s] eqn:Hinit; cbn; [ discriminate |].
  destruct (init_buffer_override _ _ _) as [buf [e | []]] eqn:Hbuf; cbn;
    [ discriminate |].
  destruct (_network (self w)) as [n |] eqn:Hn; cbn; [| discriminate ].
  destruct (network_init_network b n) as [n' [e | []]] eqn:Hnet; cbn;
    [ discriminate |].
  intros _. apply construct_inv in Hinit as (_ & _ & _ & Hb & Hr & _).
  split; [ now rewrite <- !app_assoc |].
  split; [ eexists; split; [ reflexivity |]; cbn; auto |].
  split; [ reflexivity |].
  exists n, n'. auto.
Qed.

(** In every run, returning or not, the calls made are an initial part of
    that sequence. *)
Lemma init_controller_calls_prefix w b xs :
  exists k,
    calls (fst (init_controller b xs w))
    = calls w ++ firstn k
        [NewStruct (_struct_type (self w)) b (_read_size (self w));
         SetRegTracker (_reg_tracker (self w));
         SetRegWeight push (_push_reg_weight (self w));
         SetRegWeight pop (_pop_reg_weight (self w));
         InitBuffer b xs;
         InitNetwork b].
Proof.
  unfold_py. cbn.
  destruct (issubclass_obj _ _) as [? | [|]]; cbn;
    [ exists 0%nat; cbn; now rewrite app_nil_r | | exists 0%nat; cbn; now rewrite app_nil_r ].
  destruct (zeros _ _) as [e | z]; cbn;
    [ exists 0%nat; cbn; now rewrite app_nil_r |].
  destruct (construct _ _ _) as [e | s]; cbn; [ now exists 1%nat |].
  destruct (init_buffer_override _ _ _) as [buf [e | []]]; cbn;
    [ exists 5%nat; cbn; now rewrite <- !app_assoc |].
  destruct (_network (self w)) as [n |]; cbn;
    [| exists 5%nat; cbn; now rewrite <- !app_assoc ].
  destruct (network_init_network _ _) as [n' r]; cbn.
  exists 6%nat. cbn. now rewrite <- !app_assoc.
Qed.

(** A class that is not a subclass of [Struct] is refused by the check of
    line 71: [init_controller] raises the [ValueError] of line 72 and
    leaves the whole state as it was, with no call made. *)
Lemma init_controller_rejects_class w b xs :
  issubclass_obj (_struct_type (self w)) Struct_class = inr false ->
  init_controller b xs w = (w, inl (not_a_struct (self w)))
  /\ exn_class (not_a_struct (self w)) = ValueError.
Proof.
  intros Hsub. split; [| reflexivity ].
  unfold init_controller. erewrite bind_raised.
  - now rewrite _init_struct_rejects.
  - now rewrite _init_struct_rejects.
Qed.


(** C5: for a batch size [B > 0] and a read size [R > 0], after
    [init_controller] has returned the read vector is a tensor of shape
    [B] by [R], with [B] rows of [R] entries, all of them zero. *)
Theorem init_controller_read_zeros w b xs :
  (0 < b)%Z -> (0 < _read_size (self w))%Z ->
  returned (init_controller b xs w) = Some tt ->
  exists t,
    _read (self (fst (init_controller b xs w))) = Some t
    /\ shape t = (b, _read_size (self w))
    /\ length (rows t) = Z.to_nat b
    /\ Forall (fun r => length r = Z.to_nat (_read_size (self w))) (rows t)
    /\ forall i j, (i < Z.to_nat b)%nat ->
                   (j < Z.to_nat (_read_size (self w)))%nat ->
                   entry t i j = Some 0%float.
Proof.
  intros Hb Hr Hret.
  apply init_controller_returns in Hret as (Hret & Hst & _).
  apply _init_struct_returns in Hret as (_ & z & s & Hz & _ & _ & Hread & _).
  injection Hst as _ _ Hst _. exists z. rewrite Hst, Hread.
  split; [ reflexivity |].
  split; [ now apply zeros_inv in Hz as (_ & _ & ->) |].
  destruct (zeros_rows _ _ _ Hz) as (Hlen & Hrows).
  repeat split; auto.
  intros i j Hi Hj. eapply zeros_entry; eauto.
Qed.

(** C6: with a batch size or a read size that is not positive, structure
    initialisation raises, and so does [init_controller]; it returns only
    when both are positive, and then it does for every subclass of
    [Struct]. *)
Theorem _init_struct_sizes w b :
  ((b <= 0 \/ _read_size (self w) <= 0)%Z ->
   (exists e, raised (_init_struct b w) = Some e)
   /\ forall xs, exists e, raised (init_controller b xs w) = Some e)
  /\ (returned (_init_struct b w) = Some tt ->
      (0 < b)%Z /\ (0 < _read_size (self w))%Z)
  /\ (issubclass_obj (_struct_type (self w)) Struct_class = inr true ->
      (0 < b)%Z -> (0 < _read_size (self w))%Z ->
      returned (_init_struct b w) = Some tt).
Proof.
  assert (Hfail : (b <= 0 \/ _read_size (self w) <= 0)%Z ->
                  exists e, raised (_init_struct b w) = Some e).
  { intros Hsz. unfold_py. cbn.
    destruct (issubclass_obj _ _) as [? | [|]] eqn:Hsub; cbn;
      [ eauto | | eauto ].
    destruct (zeros _ _) as [e | z]; cbn; [ eauto |].
    rewrite (construct_fails _ _ _ _ _ Hsub Hsz). cbn. eauto. }
  split; [| split ].
  - intros Hsz. split; [ auto |].
    intros xs. destruct (Hfail Hsz) as [e He]. exists e.
    unfold init_controller. erewrite bind_raised by exact He.
    reflexivity.
  - intros Hret.
    apply _init_struct_returns in Hret as (_ & z & s & _ & Hinit & _).
    now apply construct_inv in Hinit as (Hb & Hr & _).
  - intros Hsub Hb Hr. unfold_py. cbn. rewrite Hsub. cbn.
    rewrite zeros_nonneg by lia. cbn.
    destruct (construct_positive _ _ _ b (_read_size (self w)) Hsub Hb Hr)
      as [s ->].
    reflexivity.
Qed.


(** C1 (amended): for every controller in any state,
    [get_and_reset_reg_loss] returns the constant [0.] and leaves the
    controller, its structure and the tracker as they were: the total of
    the tracker is neither read nor reset. *)
Theorem get_and_reset_reg_loss_constant w :
  returned (get_and_reset_reg_loss w) = Some 0%float
  /\ fst (get_and_reset_reg_loss w) = w
  /\ own_tracker (fst (get_and_reset_reg_loss w)) = own_tracker w
  /\ attached_tracker (fst (get_and_reset_reg_loss w)) = attached_tracker w.
Proof.
  unfold get_and_reset_reg_loss, returned, ret. cbn. repeat split.
Qed.

End Controller.

(** ** The concrete batches *)

(** C1 (as stated, refuted): after a batch in which the structure added
    penalties of total [1.], the method returns [0.] and not the total, and
    the tracker still holds the penalties afterwards. *)
Lemma get_and_reset_reg_loss_not_total :
  own_tracker used = Some {| acc_push := 0.5; acc_pop := 0.5 |}
  /\ total {| acc_push := 0.5; acc_pop := 0.5 |} = 1%float
  /\ ~ (forall t, own_tracker used = Some t ->
         returned (get_and_reset_reg_loss used) = Some (total t)
         /\ own_tracker (fst (get_and_reset_reg_loss used)) = Some (reset t)).
Proof.
  split; [ reflexivity | split; [ reflexivity |]].
  intros H. destruct (H _ eq_refl) as [Hret _].
  vm_compute in Hret. apply (inj Some) in Hret.
  revert Hret. apply float_neq. vm_compute. discriminate.
Qed.

(** C2 (as stated, refuted): the second batch initialisation of a
    controller returns with a tracker attached to the new structure that
    was in the store before the call and that holds the penalties of the
    first batch: it is neither newly created nor zeroed. *)
Lemma init_controller_tracker_not_fresh :
  returned (init_controller 1 xs0 used) = Some tt
  /\ attached_tracker batch2 = Some {| acc_push := 0.5; acc_pop := 0.5 |}
  /\ ~ (exists l t,
          struct_reg_tracker <$> _struct (self batch2) = Some (Some l)
          /\ store batch2 !! l = Some t
          /\ store used !! l = None
          /\ t = InterfaceRegTracker).
Proof.
  split; [ reflexivity | split; [ reflexivity |]].
  intros (l & t & Hl & _ & Hnew & _).
  vm_compute in Hl. apply (inj Some), (inj Some) in Hl. subst l.
  vm_compute in Hnew. discriminate.
Qed.

(** The theorem above on the second batch of the example: the tracker
    attached is the one that holds the penalties of the first batch. *)
Lemma init_controller_keeps_tracker_witness :
  attached_tracker (fst (init_controller 1 xs0 (batches [] used)))
  = own_tracker used
  /\ own_tracker used = Some {| acc_push := 0.5; acc_pop := 0.5 |}.
Proof.
  split; [| vm_compute; reflexivity ].
  destruct (init_controller_keeps_tracker used [] 1%Z xs0) as (_ & _ & _ & H).
  destruct H as [_ H]; [ vm_compute; reflexivity | exact H ].
Defined.

(** The first batch of the example: its calls, its buffers and its
    network. *)
Lemma init_controller_order_witness :
  calls (fst (init_controller 1 xs0 built))
  = [NewStruct (ObjClass Stack) 1 2; SetRegTracker 0; SetRegWeight push 1;
     SetRegWeight pop 1; InitBuffer 1 xs0; InitNetwork 1]
  /\ buffers (self (fst (init_controller 1 xs0 built))) = (xs0, [])
  /\ _network (self (fst (init_controller 1 xs0 built))) = Some 1%Z.
Proof.
  destruct (init_controller_order built 1%Z xs0)
    as (Hcalls & _ & Hbuf & n & n' & _ & Hnet & Hn');
    [ vm_compute; reflexivity |].
  split; [ exact Hcalls |]. split.
  - exact (f_equal fst (eq_sym Hbuf)).
  - rewrite Hn'. exact (f_equal Some (f_equal fst (eq_sym Hnet))).
Defined.


(** A controller that was given a class that is not a structure. *)
Lemma init_controller_rejects_class_example :
  init_controller 1 xs0 misconfigured
  = (misconfigured,
     inl (mkExn ValueError
            "<class 'models.base.AbstractController'> is not a Struct")).
Proof.
  now destruct (init_controller_rejects_class misconfigured 1%Z xs0 eq_refl).
Qed.

(** The read vector of the first batch of the example. *)
Lemma init_controller_read_zeros_witness :
  exists t,
    _read (self (fst (init_controller 1 xs0 built))) = Some t
    /\ shape t = (1, 2)%Z
    /\ length (rows t) = 1%nat
    /\ Forall (fun r => length r = 2%nat) (rows t)
    /\ forall i j, (i < 1)%nat -> (j < 2)%nat -> entry t i j = Some 0%float.
Proof.
  apply (init_controller_read_zeros built 1%Z xs0); [ lia | cbn; lia | reflexivity ].
Defined.

(** A batch size of 0 and a batch size of 1 on the controller of the
    example. *)
Lemma _init_struct_sizes_witness :
  ((exists e, raised (_init_struct 0 built) = Some e)
   /\ forall xs, exists e, raised (init_controller 0 xs built) = Some e)
  /\ ((0 < 1)%Z /\ (0 < 2)%Z)
  /\ returned (_init_struct 1 built) = Some tt.
Proof.
  split; [| split ].
  - destruct (_init_struct_sizes built 0%Z) as (H & _).
    apply H. left. lia.
  - destruct (_init_struct_sizes built 1%Z) as (_ & H & _).
    apply H. reflexivity.
  - destruct (_init_struct_sizes built 1%Z) as (_ & _ & H).
    apply H; [ reflexivity | lia | cbn; lia ].
Defined.


(** ** Name resolution on the command line *)

Section Registry.

Variable globals : gmap string PyObj.

Implicit Types (name : string) (superclass : PyClass) (default : PyObj)
  (log : list Access).

(** A name that is not bound is refused after the membership test. *)
Lemma get_object_from_arg_unbound name superclass default log :
  globals !! name = None ->
  get_object_from_arg globals (Some name) superclass default log
  = (log ++ [Contains name],
     inl (mkExn ValueError ("Invalid argument " +:+ name))).
Proof.
  intros Hg. unfold get_object_from_arg, contains, bind. cbn.
  rewrite Hg. rewrite bool_decide_eq_false_2 by (intros [? [=]]).
  reflexivity.
Qed.

(** A name bound to a class is accepted exactly when the class is a
    subclass of the expected one. *)
Lemma get_object_from_arg_class name c superclass default log :
  globals !! name = Some (ObjClass c) ->
  get_object_from_arg globals (Some name) superclass default log
  = (log ++ [Contains name; GetItem name],
     if issubclass c superclass then inr (ObjClass c)
     else inl (mkExn ValueError
                 (name +:+ " is not a " +:+ class_str superclass))).
Proof.
  intros Hg. unfold get_object_from_arg, contains, getitem, bind, lift. cbn.
  rewrite Hg. rewrite bool_decide_eq_true_2 by eauto. cbn.
  rewrite <- app_assoc. cbn.
  destruct (issubclass c superclass); reflexivity.
Qed.

(** A name bound to anything else stops in [issubclass], before the check
    of line 46 can raise its [ValueError]. *)
Lemma get_object_from_arg_not_class name obj superclass default log :
  globals !! name = Some obj ->
  (forall c, obj <> ObjClass c) ->
  get_object_from_arg globals (Some name) superclass default log
  = (log ++ [Contains name; GetItem name],
     inl (mkExn TypeError "issubclass() arg 1 must be a class")).
Proof.
  intros Hg Hobj. unfold get_object_from_arg, contains, getitem, bind, lift.
  cbn. rewrite Hg. rewrite bool_decide_eq_true_2 by eauto. cbn.
  rewrite <- app_assoc. cbn.
  destruct obj; try reflexivity. now destruct (Hobj c).
Qed.

(** The entries that the three overrides do not name are those of the
    base configuration. *)
Lemma overridden_other args c (base : gmap string PyObj) (key : string) :
  key <> "model_type" -> key <> "load_path" -> key <> "save_path" ->
  overridden args c base !! key = base !! key.
Proof.
  intros Hm Hl Hs. unfold overridden, with_path, with_controller.
  destruct (savepath args), (loadpath args), c;
    repeat (rewrite lookup_insert_ne by congruence); reflexivity.
Qed.

(** Without [--config], with a task and a controller that are bound to
    classes of the expected kinds, the task is run on the empty
    configuration with the three overrides. *)
Lemma main_without_config args t log :
  config args = None ->
  globals !! task args = Some (ObjClass t) ->
  issubclass t Task = true ->
  forall c,
    match controller args, c with
    | None, None => True
    | Some name, Some cls =>
        globals !! name = Some (ObjClass cls)
        /\ issubclass cls AbstractController = true
    | _, _ => False
    end ->
    returned (main globals args log) = Some (t, overridden args c ∅).
Proof.
  intros Hcfg Ht Hsub c Hc. unfold main. unfold bind at 1.
  rewrite (get_object_from_arg_class _ _ _ _ _ Ht), Hsub, Hcfg.
  unfold bind at 1. cbn [get_object_from_arg ret].
  unfold bind at 1.
  destruct (controller args) as [name |], c as [cls |]; try contradiction.
  - destruct Hc as [Hname Hcls].
    rewrite (get_object_from_arg_class _ _ _ _ _ Hname), Hcls.
    unfold overridden, with_controller, with_path.
    destruct (loadpath args), (savepath args); reflexivity.
  - cbn [get_object_from_arg ret].
    unfold overridden, with_controller, with_path.
    destruct (loadpath args), (savepath args); reflexivity.
Qed.

(** What [get_object_from_arg] returns for a name is a class. *)
Lemma get_object_from_arg_returns name superclass default log obj :
  returned (get_object_from_arg globals (Some name) superclass default log)
  = Some obj ->
  exists c, obj = ObjClass c
            /\ globals !! name = Some (ObjClass c)
            /\ issubclass c superclass = true.
Proof.
  destruct (globals !! name) as [o |] eqn:Hg.
  - destruct o as [| c | | | | | | |];
      try (rewrite (get_object_from_arg_not_class _ _ _ _ _ Hg)
             by discriminate; discriminate).
    rewrite (get_object_from_arg_class _ _ _ _ _ Hg).
    destruct (issubclass c superclass) eqn:Hsub; [| discriminate ].
    intros [= <-]. eauto.
  - rewrite (get_object_from_arg_unbound _ _ _ _ Hg). discriminate.
Qed.

(** With [--config], no command line gets as far as the task: the name is
    unbound, or bound to an object on which [issubclass] raises, or bound
    to a class, and a class is neither assigned into nor unpacked. *)
Lemma main_with_config args name log :
  config args = Some name ->
  returned (main globals args log) = None.
Proof.
  intros Hcfg.
  destruct (returned (main globals args log)) as [v |] eqn:Hret;
    [ exfalso | reflexivity ].
  unfold main in Hret. rewrite Hcfg in Hret.
  destruct (bind_returned _ _ _ _ Hret) as (a1 & H1 & Hb). rewrite Hb in Hret.
  clear Hb.
  destruct (bind_returned _ _ _ _ Hret) as (a2 & H2 & Hb). rewrite Hb in Hret.
  clear Hb.
  destruct (bind_returned _ _ _ _ Hret) as (a3 & H3 & Hb). rewrite Hb in Hret.
  clear Hb.
  assert (Hclass : exists c, a2 = ObjClass c
                              /\ globals !! name = Some (ObjClass c)
                              /\ issubclass c dict = true).
  { eapply get_object_from_arg_returns. unfold returned. now rewrite H2. }
  destruct Hclass as (c & -> & _).
  unfold bind, setitem, run_experiment, ret, raise, returned in Hret.
  destruct a3, (loadpath args), (savepath args), a1; cbn in Hret;
    discriminate.
Qed.

(** C9: with [None] for the argument, [get_object_from_arg] returns the
    default, whatever the expected class, without raising and without any
    use of the registry; so an absent [--config] gives the empty
    dictionary, an absent [--controller] gives [None], and the
    configuration of the task then has no [model_type]. *)
Theorem get_object_from_arg_default :
  (forall superclass default log,
      get_object_from_arg globals None superclass default log
      = (log, inr default))
  /\ (forall log,
        get_object_from_arg globals None dict (ObjDict ∅) log
        = (log, inr (ObjDict ∅)))
  /\ (forall log,
        get_object_from_arg globals None AbstractController ObjNone log
        = (log, inr ObjNone))
  /\ (forall args t log,
        config args = None -> controller args = None ->
        globals !! task args = Some (ObjClass t) ->
        issubclass t Task = true ->
        exists d,
          main globals args log
          = (log ++ [Contains (task args); GetItem (task args)], inr (t, d))
          /\ d !! "model_type" = None
          /\ (loadpath args = None -> savepath args = None -> d = ∅)).
Proof.
  repeat split.
  intros args t log Hcfg Hctl Ht Hsub.
  exists (overridden args None ∅). split; [| split ].
  - unfold main. unfold bind at 1.
    rewrite (get_object_from_arg_class _ _ _ _ _ Ht), Hsub, Hcfg, Hctl.
    unfold overridden, with_controller, with_path.
    destruct (loadpath args), (savepath args); reflexivity.
  - unfold overridden, with_controller, with_path.
    destruct (loadpath args), (savepath args);
      repeat (rewrite lookup_insert_ne by discriminate); apply lookup_empty.
  - intros Hl Hs. unfold overridden, with_controller, with_path.
    now rewrite Hl, Hs.
Qed.

End Registry.

(** The theorem above on [python run.py ReverseTask]. *)
Lemma get_object_from_arg_default_witness :
  exists d,
    main run_globals args_plain []
    = ([Contains "ReverseTask"; GetItem "ReverseTask"], inr (ReverseTask, d))
    /\ d !! "model_type" = None
    /\ (loadpath args_plain = None -> savepath args_plain = None -> d = ∅).
Proof.
  destruct (get_object_from_arg_default run_globals) as (_ & _ & _ & H).
  apply (H args_plain ReverseTask []); reflexivity.
Defined.

(** C7 (the code at the failing input): on [python run.py dyck_config] the
    task name is bound to a dictionary, which is not a subclass of [Task];
    the lookup is made and [issubclass] raises a [TypeError], so the
    [ValueError] of the check is not reached. *)
Theorem get_object_from_arg_dict_as_task :
  run_globals !! "dyck_config" = Some (ObjDict dyck_config)
  /\ get_object_from_arg run_globals (Some (task args_config_as_task))
       Task ObjNone []
     = ([Contains "dyck_config"; GetItem "dyck_config"],
        inl (mkExn TypeError "issubclass() arg 1 must be a class"))
  /\ main run_globals args_config_as_task []
     = ([Contains "dyck_config"; GetItem "dyck_config"],
        inl (mkExn TypeError "issubclass() arg 1 must be a class")).
Proof.
  split; [ reflexivity |].
  assert (Hget : get_object_from_arg run_globals (Some "dyck_config")
                   Task ObjNone []
                 = ([Contains "dyck_config"; GetItem "dyck_config"],
                    inl (mkExn TypeError "issubclass() arg 1 must be a class"))).
  { apply (get_object_from_arg_not_class run_globals "dyck_config"
             (ObjDict dyck_config)); [ reflexivity | discriminate ]. }
  split; [ exact Hget |].
  unfold main, bind. cbn [task args_config_as_task]. now rewrite Hget.
Qed.

(** C8 (the code at the failing input): on
    [python run.py CFGTask --config dyck_config], the second usage example
    of [run.py], the task resolves, the configuration name is bound to the
    dictionary of [tasks/configs.py], and [issubclass] raises a [TypeError]
    on it: no configuration reaches the task. *)
Theorem main_named_config :
  run_globals !! "CFGTask" = Some (ObjClass CFGTask)
  /\ issubclass CFGTask Task = true
  /\ run_globals !! "dyck_config" = Some (ObjDict dyck_config)
  /\ main run_globals args_dyck []
     = ([Contains "CFGTask"; GetItem "CFGTask";
         Contains "dyck_config"; GetItem "dyck_config"],
        inl (mkExn TypeError "issubclass() arg 1 must be a class"))
  /\ returned (main run_globals args_dyck []) = None.
Proof.
  assert (Hmain : main run_globals args_dyck []
     = ([Contains "CFGTask"; GetItem "CFGTask";
         Contains "dyck_config"; GetItem "dyck_config"],
        inl (mkExn TypeError "issubclass() arg 1 must be a class"))).
  { unfold main. unfold bind at 1. cbn [task config args_dyck].
    rewrite (get_object_from_arg_class run_globals "CFGTask" CFGTask)
      by reflexivity.
    replace (issubclass CFGTask Task) with true by reflexivity.
    unfold bind at 1.
    rewrite (get_object_from_arg_not_class run_globals "dyck_config"
               (ObjDict dyck_config)) by (reflexivity || discriminate).
    reflexivity. }
  do 3 (split; [ reflexivity |]). split; [ exact Hmain |].
  unfold returned. now rewrite Hmain.
Qed.

(** Without [--config] the same command line runs: the overrides are
    applied to the empty configuration. *)
Lemma main_reverse_task :
  returned (main run_globals args_reverse [])
  = Some (ReverseTask,
          <["save_path" := ObjStr "out"]>
            (<["model_type" := ObjClass BufferedController]> ∅)).
Proof.
  apply (main_without_config run_globals args_reverse ReverseTask []
           eq_refl eq_refl eq_refl (Some BufferedController)).
  split; reflexivity.
Qed.

(** * Further properties of the controller *)

Import Methods.

Section Initialisation.

Context {Net Buf Xs : Type} `{!Concrete Net Buf Xs}.

Implicit Types (w : World Net Buf Xs) (b : Z) (xs : Xs).

(** [init_controller] returns exactly when each of its collaborators
    does: the class is a structure, [torch.zeros] and the constructor of
    the structure return, the override of [_init_buffer] returns, a network
    is assigned and its [init_network] returns. *)
Theorem init_controller_returns_iff w b xs :
  returned (init_controller b xs w) = Some tt <->
  issubclass_obj (_struct_type (self w)) Struct_class = inr true
  /\ (exists z, zeros b (_read_size (self w)) = inr z)
  /\ (exists s, construct (_struct_type (self w)) b (_read_size (self w))
                = inr s)
  /\ snd (init_buffer_override b xs (buffers (self w))) = inr tt
  /\ exists n, _network (self w) = Some n
               /\ snd (network_init_network b n) = inr tt.
Proof.
  unfold_py. cbn.
  destruct (issubclass_obj _ _) as [? | [|]]; cbn;
    [ split; [ discriminate | intros (H & _); discriminate ] | | split; [ discriminate | intros (H & _); discriminate ] ].
  destruct (zeros _ _) as [e | z]; cbn;
    [ split; [ discriminate | intros (_ & [z H] & _); discriminate ] |].
  destruct (construct _ _ _) as [e | s]; cbn;
    [ split; [ discriminate | intros (_ & _ & [s H] & _); discriminate ] |].
  destruct (init_buffer_override _ _ _) as [buf [e | []]]; cbn;
    [ split; [ discriminate | intros (_ & _ & _ & H & _); discriminate ] |].
  destruct (_network (self w)) as [n |]; cbn;
    [| split; [ discriminate
              | intros (_ & _ & _ & _ & n & H & _); discriminate ]].
  destruct (network_init_network b n) as [n' [e | []]] eqn:Hn; cbn.
  - split; [ discriminate |].
    intros (_ & _ & _ & _ & n0 & [= <-] & Hn0). rewrite Hn in Hn0.
    discriminate.
  - split; [| reflexivity ]. intros _.
    repeat split; eauto. exists n. now rewrite Hn.
Qed.

(** When the override of [_init_buffer] raises after the structure was
    initialised, [init_controller] raises the same exception; the new
    structure and the new read vector are already in place, and the
    network is neither called nor changed. *)
Theorem init_controller_buffer_raises w b xs e :
  returned (_init_struct b w) = Some tt ->
  snd (init_buffer_override b xs (buffers (self w))) = inl e ->
  raised (init_controller b xs w) = Some e
  /\ struct_state (fst (init_controller b xs w))
     = struct_state (fst (_init_struct b w))
  /\ _network (self (fst (init_controller b xs w))) = _network (self w)
  /\ calls (fst (init_controller b xs w))
     = calls (fst (_init_struct b w)) ++ [InitBuffer b xs].
Proof.
  intros Hret Hbuf.
  destruct (_init_struct_frame w b) as (_ & _ & Hnet & Hbufs).
  unfold init_controller, bind. unfold returned in Hret.
  destruct (_init_struct b w) as [w1 [e1 | []]]; cbn in *; [ discriminate |].
  rewrite <- Hbufs in Hbuf.
  destruct (_init_buffer_frame w1 b xs) as (Hst & Hn & Hcalls).
  assert (Hr : snd (_init_buffer b xs w1) = inl e).
  { unfold _init_buffer, bind, call, modify. cbn.
    destruct (init_buffer_override _ _ _) as [buf r]. cbn in *. assumption. }
  destruct (_init_buffer b xs w1) as [w2 r]. cbn in *. subst r. cbn.
  repeat split; auto. congruence.
Qed.

(** Without a network ([_network] is [None], as the constructor leaves
    it), [init_controller] never returns; when the two first steps return,
    it is the [AttributeError] of line 110 that is raised, after the
    buffers were initialised. *)
Theorem init_controller_without_network w b xs :
  _network (self w) = None ->
  returned (init_controller b xs w) = None
  /\ (returned (_init_struct b w) = Some tt ->
      snd (init_buffer_override b xs (buffers (self w))) = inr tt ->
      raised (init_controller b xs w)
      = Some (mkExn AttributeError
                "'NoneType' object has no attribute 'init_network'")
      /\ calls (fst (init_controller b xs w))
         = calls (fst (_init_struct b w)) ++ [InitBuffer b xs]).
Proof.
  intros Hnone. split.
  - unfold_py. cbn.
    destruct (issubclass_obj _ _) as [? | [|]]; cbn;
      [ reflexivity | | reflexivity ].
    destruct (zeros _ _) as [e | z]; cbn; [ reflexivity |].
    destruct (construct _ _ _) as [e | s]; cbn; [ reflexivity |].
    destruct (init_buffer_override _ _ _) as [buf [e | []]]; cbn;
      [ reflexivity |].
    rewrite Hnone. reflexivity.
  - unfold_py. cbn.
    destruct (issubclass_obj _ _) as [? | [|]]; cbn;
      [ discriminate | | discriminate ].
    destruct (zeros _ _) as [e | z]; cbn; [ discriminate |].
    destruct (construct _ _ _) as [e | s]; cbn; [ discriminate |].
    intros _ Hbuf.
    destruct (init_buffer_override _ _ _) as [buf r]. cbn in *. subst r.
    cbn. rewrite Hnone. cbn. split; reflexivity.
Qed.

(** A negative batch size or read size is refused by [torch.zeros] before
    anything is assigned: [init_controller] raises its [RuntimeError] and
    leaves the whole state as it was. *)
Theorem init_controller_negative_size w b xs :
  issubclass_obj (_struct_type (self w)) Struct_class = inr true ->
  (b < 0 \/ _read_size (self w) < 0)%Z ->
  init_controller b xs w
  = (w, inl (mkExn RuntimeError
               "Trying to create tensor with negative dimension")).
Proof.
  intros Hsub Hneg. unfold_py. cbn. rewrite Hsub. cbn.
  assert (Hz : zeros b (_read_size (self w))
               = inl (mkExn RuntimeError
                        "Trying to create tensor with negative dimension")).
  { unfold zeros.
    destruct (Z.ltb_spec b 0); destruct (Z.ltb_spec (_read_size (self w)) 0);
      cbn; auto; lia. }
  rewrite Hz. reflexivity.
Qed.

(** A batch initialisation forgets the structure and the read vector of
    the batch before: what it leaves depends on the configuration of the
    controller and on the batch size only. *)
Theorem init_controller_discards_previous w1 w2 b xs1 xs2 :
  _struct_type (self w1) = _struct_type (self w2) ->
  _read_size (self w1) = _read_size (self w2) ->
  _reg_tracker (self w1) = _reg_tracker (self w2) ->
  _push_reg_weight (self w1) = _push_reg_weight (self w2) ->
  _pop_reg_weight (self w1) = _pop_reg_weight (self w2) ->
  returned (init_controller b xs1 w1) = Some tt ->
  returned (init_controller b xs2 w2) = Some tt ->
  _struct (self (fst (init_controller b xs1 w1)))
  = _struct (self (fst (init_controller b xs2 w2)))
  /\ _read (self (fst (init_controller b xs1 w1)))
     = _read (self (fst (init_controller b xs2 w2))).
Proof.
  intros Ht Hr Hk Hpu Hpo Hret1 Hret2.
  apply init_controller_returns in Hret1 as (Hret1 & Hst1 & _).
  apply init_controller_returns in Hret2 as (Hret2 & Hst2 & _).
  apply _init_struct_returns in Hret1
    as (_ & z1 & s1 & Hz1 & Hi1 & _ & Hread1 & Hstruct1 & _).
  apply _init_struct_returns in Hret2
    as (_ & z2 & s2 & Hz2 & Hi2 & _ & Hread2 & Hstruct2 & _).
  injection Hst1 as _ Hs1 Hr1 _. injection Hst2 as _ Hs2 Hr2 _.
  rewrite ?Ht, ?Hr in Hz1, Hi1.
  assert (z1 = z2) by congruence. assert (s1 = s2) by congruence. subst.
  split; congruence.
Qed.

(** The configuration of a controller and the store of trackers are out
    of reach of [init_controller]. *)
Lemma init_controller_configuration w b xs :
  let w' := fst (init_controller b xs w) in
  store w' = store w
  /\ _struct_type (self w') = _struct_type (self w)
  /\ _read_size (self w') = _read_size (self w)
  /\ _reg_tracker (self w') = _reg_tracker (self w)
  /\ _push_reg_weight (self w') = _push_reg_weight (self w)
  /\ _pop_reg_weight (self w') = _pop_reg_weight (self w).
Proof.
  unfold_py. cbn.
  destruct (issubclass_obj _ _) as [? | [|]]; cbn;
    [ repeat split | | repeat split ].
  destruct (zeros _ _) as [e | z]; cbn; [ repeat split |].
  destruct (construct _ _ _) as [e | s]; cbn; [ repeat split |].
  destruct (init_buffer_override _ _ _) as [buf [e | []]]; cbn;
    [ repeat split |].
  destruct (_network (self w)) as [n |]; cbn; [| repeat split ].
  destruct (network_init_network b n) as [n' r]; cbn. repeat split.
Qed.

Lemma invoke_configuration (m : Method Xs) w :
  store (invoke m w) = store w
  /\ _struct_type (self (invoke m w)) = _struct_type (self w)
  /\ _read_size (self (invoke m w)) = _read_size (self w)
  /\ _reg_tracker (self (invoke m w)) = _reg_tracker (self w)
  /\ _push_reg_weight (self (invoke m w)) = _push_reg_weight (self w)
  /\ _pop_reg_weight (self (invoke m w)) = _pop_reg_weight (self w).
Proof.
  destruct m as [b xs | b kwargs | | | | |]; cbn; try (repeat split; fail).
  - apply init_controller_configuration.
  - unfold init_stack, call_init_controller.
    destruct (clashes kwargs); cbn; [ repeat split |].
    destruct (negb _); cbn; [ repeat split |].
    destruct (kwargs !! "xs") as [xs |]; cbn; [| repeat split ].
    apply init_controller_configuration.
Qed.

Lemma invoke_all_configuration (ms : list (Method Xs)) w :
  store (invoke_all ms w) = store w
  /\ _struct_type (self (invoke_all ms w)) = _struct_type (self w)
  /\ _read_size (self (invoke_all ms w)) = _read_size (self w)
  /\ _reg_tracker (self (invoke_all ms w)) = _reg_tracker (self w)
  /\ _push_reg_weight (self (invoke_all ms w)) = _push_reg_weight (self w)
  /\ _pop_reg_weight (self (invoke_all ms w)) = _pop_reg_weight (self w).
Proof.
  revert w. induction ms as [| m ms IH]; intros w.
  - repeat split.
  - change (invoke_all (m :: ms) w) with (invoke_all ms (invoke m w)).
    destruct (invoke_configuration m w) as (H1 & H2 & H3 & H4 & H5 & H6).
    destruct (IH (invoke m w)) as (I1 & I2 & I3 & I4 & I5 & I6).
    repeat split; congruence.
Qed.

(** No sequence of calls of the methods of [AbstractController], whether
    they return or raise, changes what the accessors return, the two
    weights, any tracker of the store, or the tracker that the controller
    holds: the base class never writes to its tracker. *)
Theorem methods_keep_configuration (ms : list (Method Xs)) w :
  returned (get_read_size (invoke_all ms w)) = returned (get_read_size w)
  /\ returned (struct_type (invoke_all ms w)) = returned (struct_type w)
  /\ _push_reg_weight (self (invoke_all ms w)) = _push_reg_weight (self w)
  /\ _pop_reg_weight (self (invoke_all ms w)) = _pop_reg_weight (self w)
  /\ store (invoke_all ms w) = store w
  /\ own_tracker (invoke_all ms w) = own_tracker w.
Proof.
  destruct (invoke_all_configuration ms w) as (Hs & Ht & Hr & Hk & Hpu & Hpo).
  unfold get_read_size, struct_type, returned, bind, get, ret, own_tracker.
  cbn. rewrite Hs, Ht, Hr, Hk. repeat split; assumption.
Qed.

(** From construction on.  Line 54 needs the name [InterfaceRegTracker]:
    in a namespace that does not bind it the constructor raises a
    [NameError], whatever its arguments, and the namespace of
    [models/base.py] is one.  Where the name is bound to a class, the
    constructor returns a controller with one new tracker behind those of
    the store, and after any sequence of calls the accessors still return
    the read size and the structure type given to the constructor, and
    the controller still holds that tracker, untouched. *)
Theorem construction_then_methods (namespace : gmap string PyObj)
    (read_size : Z) (struct_type_ : PyObj)
    (push_weight pop_weight : float) (own : Buf)
    (trackers : list RegTracker) (ms : list (Method Xs)) :
  (namespace !! "InterfaceRegTracker" = None ->
   @__init__ Net Buf Xs namespace read_size struct_type_ push_weight
     pop_weight own trackers
   = inl (mkExn NameError "global name 'InterfaceRegTracker' is not defined"))
  /\ @__init__ Net Buf Xs base_namespace read_size struct_type_ push_weight
       pop_weight own trackers
     = inl (mkExn NameError
              "global name 'InterfaceRegTracker' is not defined")
  /\ (forall w0,
        __init__ namespace read_size struct_type_ push_weight pop_weight own
          trackers = inr w0 ->
        let w := invoke_all ms w0 in
        returned (get_read_size w) = Some read_size
        /\ returned (struct_type w) = Some struct_type_
        /\ store w = trackers ++ [InterfaceRegTracker]
        /\ _reg_tracker (self w) = length trackers
        /\ own_tracker w = Some InterfaceRegTracker).
Proof.
  split; [| split ].
  - intros Hname. unfold __init__. now rewrite Hname.
  - reflexivity.
  - intros w0 Hnew. cbn zeta.
    assert (Hw0 : w0 = constructed read_size struct_type_ push_weight
                         pop_weight own trackers).
    { unfold __init__ in Hnew.
      destruct (namespace !! "InterfaceRegTracker") as [[] |];
        try discriminate.
      now injection Hnew as <-. }
    subst w0.
    destruct (invoke_all_configuration ms
                (constructed read_size struct_type_ push_weight pop_weight
                   own trackers))
      as (Hs & Ht & Hr & Hk & _).
    unfold get_read_size, struct_type, returned, bind, get, ret, own_tracker.
    cbn. rewrite Hs, Ht, Hr, Hk. cbn.
    repeat split.
    rewrite lookup_app_r by reflexivity.
    now rewrite Nat.sub_diag.
Qed.

(** [init_stack(batch_size, xs=xs)] is [init_controller(batch_size, xs)]. *)
Theorem init_stack_xs w b xs :
  init_stack b {[ "xs" := xs ]} w = init_controller b xs w.
Proof.
  unfold init_stack, call_init_controller, clashes.
  rewrite !lookup_singleton_ne by discriminate.
  rewrite !bool_decide_eq_false_2 by (intros [? [=]]). cbn.
  rewrite delete_singleton_eq, bool_decide_eq_true_2 by reflexivity. cbn.
  now rewrite lookup_singleton_eq.
Qed.

(** With keyword arguments that are not exactly the one keyword [xs],
    [init_stack] raises a [TypeError] and leaves the state as it was. *)
Theorem init_stack_bad_keywords w b (kwargs : gmap string Xs) :
  (forall xs, kwargs <> {[ "xs" := xs ]}) ->
  fst (init_stack b kwargs w) = w
  /\ exists e, raised (init_stack b kwargs w) = Some e
               /\ exn_class e = TypeError.
Proof.
  intros Hbad. unfold init_stack, call_init_controller.
  destruct (clashes kwargs); cbn; [ eauto |].
  destruct (bool_decide (delete "xs" kwargs = ∅)) eqn:Hdel; cbn; [| eauto ].
  destruct (kwargs !! "xs") as [xs |] eqn:Hxs; cbn; [| eauto ].
  apply bool_decide_eq_true_1 in Hdel. destruct (Hbad xs).
  rewrite <- (insert_delete_id kwargs "xs" xs Hxs), Hdel.
  reflexivity.
Qed.

(** When the constructor of the structure raises, the read vector has
    already been replaced by the zeros of the new batch, while [_struct]
    still is the structure of the batch before: line 74 runs before line
    75.  No tracker or weight is attached and the later steps are not
    reached. *)
Theorem init_controller_constructor_raises w b xs z e :
  issubclass_obj (_struct_type (self w)) Struct_class = inr true ->
  zeros b (_read_size (self w)) = inr z ->
  construct (_struct_type (self w)) b (_read_size (self w)) = inl e ->
  raised (init_controller b xs w) = Some e
  /\ _read (self (fst (init_controller b xs w))) = Some z
  /\ _struct (self (fst (init_controller b xs w))) = _struct (self w)
  /\ calls (fst (init_controller b xs w))
     = calls w ++ [NewStruct (_struct_type (self w)) b (_read_size (self w))].
Proof.
  intros Hsub Hz Hinit. unfold_py. cbn.
  rewrite Hsub. cbn. rewrite Hz. cbn. rewrite Hinit. cbn.
  repeat split.
Qed.

End Initialisation.

Section NotOverridden.

Context {Net Buf Xs : Type}.

Variable net_init : Z -> Net -> Net * (Exn + unit).

Implicit Types (w : World Net Buf Xs) (b : Z) (xs : Xs).

(** With the [_init_buffer] of the base class, [init_controller] never
    returns and never reaches the network; once the structure is
    initialised it raises the [NotImplementedError] of line 98, and the
    buffers and the network are as they were. *)
Theorem init_controller_not_overridden w b xs :
  returned (@init_controller Net Buf Xs (not_overridden net_init) b xs w)
  = None
  /\ buffers (self (fst (@init_controller Net Buf Xs
                           (not_overridden net_init) b xs w)))
     = buffers (self w)
  /\ _network (self (fst (@init_controller Net Buf Xs
                            (not_overridden net_init) b xs w)))
     = _network (self w)
  /\ (returned (_init_struct b w) = Some tt ->
      raised (@init_controller Net Buf Xs (not_overridden net_init) b xs w)
      = Some missing_init_buffer
      /\ calls (fst (@init_controller Net Buf Xs
                       (not_overridden net_init) b xs w))
         = calls (fst (_init_struct b w)) ++ [InitBuffer b xs]).
Proof.
  unfold_py. cbn.
  destruct (issubclass_obj _ _) as [? | [|]]; cbn;
    [ repeat split; discriminate | | repeat split; discriminate ].
  destruct (zeros _ _) as [e | z]; cbn; [ repeat split; discriminate |].
  destruct (construct _ _ _) as [e | s]; cbn;
    [ repeat split; discriminate |].
  repeat split.
Qed.

End NotOverridden.

(** * Further properties of the command line *)

Section Resolution.

Variable globals : gmap string PyObj.

Implicit Types (name : string) (superclass : PyClass) (default : PyObj)
  (log : list Access) (args : Args).

(** A name resolves exactly when it is bound to a class that is a subclass
    of the expected one, and it resolves to that class: no other object is
    ever returned for a name, the default included. *)
Theorem get_object_from_arg_resolves_iff name superclass default log obj :
  returned (get_object_from_arg globals (Some name) superclass default log)
  = Some obj
  <-> exists c, obj = ObjClass c
                /\ globals !! name = Some (ObjClass c)
                /\ issubclass c superclass = true.
Proof.
  split.
  - apply get_object_from_arg_returns.
  - intros (c & -> & Hg & Hsub).
    now rewrite (get_object_from_arg_class _ _ _ _ _ _ Hg), Hsub.
Qed.


(** The task is resolved first: with a task name that is not bound,
    [__main__] raises the [ValueError] for it after the one membership
    test, whatever the other arguments are. *)
Theorem main_unknown_task args log :
  globals !! task args = None ->
  main globals args log
  = (log ++ [Contains (task args)],
     inl (mkExn ValueError ("Invalid argument " +:+ task args))).
Proof.
  intros Hg. unfold main. unfold bind at 1.
  now rewrite (get_object_from_arg_unbound _ _ _ _ _ Hg).
Qed.

(** What a run of [__main__] that reaches the task has gone through. *)
Lemma main_returns_inv args log t d :
  returned (main globals args log) = Some (t, d) ->
  config args = None
  /\ globals !! task args = Some (ObjClass t)
  /\ issubclass t Task = true
  /\ exists c,
       match controller args, c with
       | None, None => True
       | Some name, Some cls =>
           globals !! name = Some (ObjClass cls)
           /\ issubclass cls AbstractController = true
       | _, _ => False
       end
       /\ d = overridden args c ∅.
Proof.
  intros Hret.
  destruct (config args) as [name |] eqn:Hcfg.
  { now rewrite (main_with_config _ _ _ _ Hcfg) in Hret. }
  split; [ reflexivity |].
  unfold main in Hret. rewrite Hcfg in Hret.
  destruct (bind_returned _ _ _ _ Hret) as (a1 & H1 & Hb). rewrite Hb in Hret.
  clear Hb.
  assert (Hclass : exists c, a1 = ObjClass c
                              /\ globals !! task args = Some (ObjClass c)
                              /\ issubclass c Task = true).
  { eapply get_object_from_arg_returns. unfold returned. now rewrite H1. }
  destruct Hclass as (t1 & -> & Ht & Hsub).
  unfold bind at 1 in Hret. cbn [get_object_from_arg ret] in Hret.
  destruct (bind_returned _ _ _ _ Hret) as (a3 & H3 & Hb). rewrite Hb in Hret.
  clear Hb.
  destruct (controller args) as [cname |] eqn:Hctl.
  - assert (Hclass : exists c, a3 = ObjClass c
                                /\ globals !! cname = Some (ObjClass c)
                                /\ issubclass c AbstractController = true).
    { eapply get_object_from_arg_returns. unfold returned. now rewrite H3. }
    destruct Hclass as (cls & -> & Hc & Hcsub).
    unfold bind, setitem, run_experiment, ret, raise, returned in Hret.
    destruct (loadpath args) eqn:Hl, (savepath args) eqn:Hs; cbn in Hret;
      injection Hret as <- <-;
      (split; [ exact Ht | split; [ exact Hsub |]];
       exists (Some cls); split; [ now split |];
       unfold overridden, with_controller, with_path;
       now rewrite Hl, Hs).
  - cbn in H3. injection H3 as <-.
    unfold bind, setitem, run_experiment, ret, raise, returned in Hret.
    destruct (loadpath args) eqn:Hl, (savepath args) eqn:Hs; cbn in Hret;
      injection Hret as <- <-;
      (split; [ exact Ht | split; [ exact Hsub |]];
       exists None; split; [ exact I |];
       unfold overridden, with_controller, with_path;
       now rewrite Hl, Hs).
Qed.

(** [__main__] reaches the task exactly when [--config] is absent, the
    task name is bound to a subclass of [Task] and the controller name, if
    any, to a subclass of [AbstractController]; the task is then built
    from the empty configuration with the overrides of the command line. *)
Theorem main_returns_iff args log t d :
  returned (main globals args log) = Some (t, d)
  <-> config args = None
      /\ globals !! task args = Some (ObjClass t)
      /\ issubclass t Task = true
      /\ exists c,
           match controller args, c with
           | None, None => True
           | Some name, Some cls =>
               globals !! name = Some (ObjClass cls)
               /\ issubclass cls AbstractController = true
           | _, _ => False
           end
           /\ d = overridden args c ∅.
Proof.
  split.
  - apply main_returns_inv.
  - intros (Hcfg & Ht & Hsub & c & Hc & ->).
    now apply main_without_config.
Qed.

(** The keyword arguments that the task is built from: [load_path] and
    [save_path] are the paths of the command line, as strings, and absent
    without them; [model_type] is there exactly with [--controller], bound
    to a class; there is no other entry. *)
Theorem main_entries args log t d :
  returned (main globals args log) = Some (t, d) ->
  d !! "load_path" = ObjStr <$> loadpath args
  /\ d !! "save_path" = ObjStr <$> savepath args
  /\ (exists c, d !! "model_type" = ObjClass <$> c
                /\ (c = None <-> controller args = None))
  /\ forall key, key <> "model_type" -> key <> "load_path" ->
                 key <> "save_path" -> d !! key = None.
Proof.
  intros Hret.
  apply main_returns_inv in Hret as (_ & _ & _ & c & Hc & ->).
  unfold overridden, with_controller, with_path.
  split; [| split; [| split ]].
  - destruct (savepath args), (loadpath args), c; cbn;
      repeat (rewrite lookup_insert_ne by discriminate);
      rewrite ?lookup_insert_eq, ?lookup_empty; reflexivity.
  - destruct (savepath args), (loadpath args), c; cbn;
      repeat (rewrite lookup_insert_ne by discriminate);
      rewrite ?lookup_insert_eq, ?lookup_empty; reflexivity.
  - exists c. split.
    + destruct (savepath args), (loadpath args), c; cbn;
        repeat (rewrite lookup_insert_ne by discriminate);
        rewrite ?lookup_insert_eq, ?lookup_empty; reflexivity.
    + destruct (controller args), c; try contradiction;
        split; intros; congruence.
  - intros key Hm Hl Hs.
    destruct (savepath args), (loadpath args), c;
      repeat (rewrite lookup_insert_ne by congruence); apply lookup_empty.
Qed.

End Resolution.

(** ** The further properties on the examples *)

(** The controller of the examples with a class that does not override
    [_init_buffer]: the first batch stops there. *)
Lemma init_controller_buffer_raises_witness :
  raised (@init_controller _ _ _ plain 1 xs0 built) = Some missing_init_buffer
  /\ struct_state (fst (@init_controller _ _ _ plain 1 xs0 built))
     = struct_state (fst (_init_struct 1 built))
  /\ _network (self (fst (@init_controller _ _ _ plain 1 xs0 built)))
     = _network (self built)
  /\ calls (fst (@init_controller _ _ _ plain 1 xs0 built))
     = calls (fst (_init_struct 1 built)) ++ [InitBuffer 1 xs0].
Proof.
  apply (@init_controller_buffer_raises _ _ _ plain built 1%Z xs0
           missing_init_buffer);
    vm_compute; reflexivity.
Defined.

(** The same controller on the general statement about the base class. *)
Lemma init_controller_not_overridden_witness :
  raised (@init_controller _ _ _ plain 1 xs0 built) = Some missing_init_buffer
  /\ calls (fst (@init_controller _ _ _ plain 1 xs0 built))
     = calls (fst (_init_struct 1 built)) ++ [InitBuffer 1 xs0].
Proof.
  destruct (init_controller_not_overridden
              (fun batch_size (_ : Z) => (batch_size, inr tt : Exn + unit))
              built 1%Z xs0) as (_ & _ & _ & H).
  apply H. vm_compute; reflexivity.
Defined.

(** The controller of the examples before its network is assigned. *)
Lemma init_controller_without_network_witness :
  returned (init_controller 1 xs0 unwired) = None
  /\ raised (init_controller 1 xs0 unwired)
     = Some (mkExn AttributeError
               "'NoneType' object has no attribute 'init_network'")
  /\ calls (fst (init_controller 1 xs0 unwired))
     = calls (fst (_init_struct 1 unwired)) ++ [InitBuffer 1 xs0].
Proof.
  destruct (init_controller_without_network unwired 1%Z xs0 eq_refl)
    as (Hnone & H).
  split; [ exact Hnone |].
  apply H; vm_compute; reflexivity.
Defined.

(** A batch size of -1 on the controller of the examples. *)
Lemma init_controller_negative_size_witness :
  init_controller (-1) xs0 built
  = (built, inl (mkExn RuntimeError
                   "Trying to create tensor with negative dimension")).
Proof.
  apply (init_controller_negative_size built (-1)%Z xs0);
    [ vm_compute; reflexivity | left; lia ].
Defined.

(** The first batch of the examples and the batch after the structure was
    used leave the same structure and the same read vector. *)
Lemma init_controller_discards_previous_witness :
  _struct (self (fst (init_controller 1 xs0 built)))
  = _struct (self (fst (init_controller 1 xs0 used)))
  /\ _read (self (fst (init_controller 1 xs0 built)))
     = _read (self (fst (init_controller 1 xs0 used))).
Proof.
  apply (init_controller_discards_previous built used 1%Z xs0 xs0);
    vm_compute; reflexivity.
Defined.

(** No keyword at all. *)
Lemma init_stack_bad_keywords_witness :
  fst (init_stack 1 ∅ built) = built
  /\ exists e, raised (init_stack 1 ∅ built) = Some e
               /\ exn_class e = TypeError.
Proof.
  apply (init_stack_bad_keywords built 1%Z ∅).
  intros xs H. apply (f_equal (fun m => m !! "xs")) in H.
  vm_compute in H. discriminate.
Defined.

(** [python run.py NoSuchTask --controller BufferedController] *)
Lemma main_unknown_task_witness :
  main run_globals args_unknown_task []
  = ([Contains "NoSuchTask"],
     inl (mkExn ValueError "Invalid argument NoSuchTask")).
Proof.
  apply (main_unknown_task run_globals args_unknown_task []).
  vm_compute; reflexivity.
Defined.

(** [python run.py ReverseTask --controller BufferedController
    --savepath out] *)
Lemma main_entries_witness :
  let d : gmap string PyObj :=
    <["save_path" := ObjStr "out"]>
      (<["model_type" := ObjClass BufferedController]> ∅) in
  d !! "load_path" = None
  /\ d !! "save_path" = Some (ObjStr "out")
  /\ (exists c, d !! "model_type" = ObjClass <$> c
                /\ (c = None <-> controller args_reverse = None))
  /\ forall key, key <> "model_type" -> key <> "load_path" ->
                 key <> "save_path" -> d !! key = None.
Proof.
  apply (main_entries run_globals args_reverse [] ReverseTask).
  apply main_reverse_task.
Defined.

(** A batch size of 0 after the first batch of the examples: the read
    vector is the empty tensor of the new batch and the structure is the
    one of the first batch. *)
Lemma init_controller_constructor_raises_witness :
  raised (init_controller 0 xs0 batch1)
  = Some (mkExn StructInitError "batch_size and vector_size must be positive")
  /\ _read (self (fst (init_controller 0 xs0 batch1)))
     = Some {| shape := (0, 2)%Z; rows := [] |}
  /\ _struct (self (fst (init_controller 0 xs0 batch1)))
     = _struct (self batch1)
  /\ calls (fst (init_controller 0 xs0 batch1))
     = calls batch1 ++ [NewStruct (ObjClass Stack) 0 2].
Proof.
  apply (init_controller_constructor_raises batch1 0%Z xs0);
    vm_compute; reflexivity.
Defined.

(** The constructor in the namespace of [models/base.py], and the
    controller of the examples, as a namespace that binds the name to a
    class gives it, after a batch and a read of the loss. *)
Lemma construction_then_methods_witness :
  @__init__ Z (list Tensor * list Tensor) (list Tensor) base_namespace 2
    (ObjClass Stack) 1 1 ([], []) []
  = inl (mkExn NameError "global name 'InterfaceRegTracker' is not defined")
  /\ (let w := invoke_all [InitController 1 xs0; GetAndResetRegLoss] unwired in
      returned (get_read_size w) = Some 2%Z
      /\ returned (struct_type w) = Some (ObjClass Stack)
      /\ store w = [] ++ [InterfaceRegTracker]
      /\ _reg_tracker (self w) = length (@nil RegTracker)
      /\ own_tracker w = Some InterfaceRegTracker).
Proof.
  split.
  - destruct (@construction_then_methods Z (list Tensor * list Tensor)
                (list Tensor) buffered base_namespace 2%Z (ObjClass Stack)
                1%float 1%float ([], []) [] []) as (H & _).
    apply H. vm_compute; reflexivity.
  - destruct (@construction_then_methods Z (list Tensor * list Tensor)
                (list Tensor) buffered namespace_with_tracker 2%Z
                (ObjClass Stack) 1%float 1%float ([], []) []
                [InitController 1%Z xs0; GetAndResetRegLoss]) as (_ & _ & H).
    apply (H unwired). vm_compute; reflexivity.
Defined.
